(** * USSD, SMS and e-mail parts of [NaloSolutions]
    (src/src/nunyakata/services/nalo_solutions.py)

    Shallow embedding of the Nalo Solutions client:
    [handle_ussd_request], [create_ussd_menu], [create_ussd_response],
    the in-memory session store ([get_ussd_session], [update_ussd_session],
    [clear_ussd_session]), the validators ([validate_amount],
    [validate_phone_number], [validate_email]), and [send_sms],
    [send_email], [send_html_email], [send_bulk_email] and
    [send_email_with_template] up to the [_make_request] call they make.

    Python strings are modelled as [string] (code points 0..255); the
    parts of CPython's [int()] and [float()] conversions the code relies
    on are written out over [list ascii]. *)

From Stdlib Require Import Ascii String ZArith List Lia.
From stdpp Require Import base gmap strings list.
Import ListNotations.
Open Scope string_scope.

(* ------------------------------------------------------------------ *)
(** ** Characters and Python's numeric conversions *)

Definition code (c : ascii) : nat := nat_of_ascii c.

Definition is_digit (c : ascii) : bool :=
  (48 <=? code c)%nat && (code c <=? 57)%nat.

Definition digit_val (c : ascii) : Z := Z.of_nat (code c) - 48.

(** Whitespace as seen by [int()] and [float()] on a [str]:
    [_PyUnicode_TransformDecimalAndSpaceToASCII] maps non-ASCII
    whitespace (U+0085, U+00A0) to a blank, then [Py_ISSPACE] strips
    blank, \t, \n, \v, \f and \r. *)
Definition py_space (c : ascii) : bool :=
  match code c with
  | 9 | 10 | 11 | 12 | 13 | 32 | 133 | 160 => true
  | _ => false
  end%nat.

(** Non-ASCII characters other than whitespace are not decimal digits
    in the range 128..255, so the transformation fails on them. *)
Definition py_transform (l : list ascii) : option (list ascii) :=
  if forallb (fun c => (code c <? 128)%nat || py_space c) l then Some l else None.

Fixpoint lstrip (l : list ascii) : list ascii :=
  match l with
  | c :: r => if py_space c then lstrip r else l
  | [] => []
  end.

Definition py_strip (l : list ascii) : list ascii := rev (lstrip (rev (lstrip l))).

Inductive sign := NoSign | Plus | Minus.

Definition take_sign (l : list ascii) : sign * list ascii :=
  match l with
  | c :: r =>
      if Ascii.eqb c "+"%char then (Plus, r)
      else if Ascii.eqb c "-"%char then (Minus, r)
      else (NoSign, l)
  | [] => (NoSign, l)
  end.

Definition sign_chars (s : sign) : list ascii :=
  match s with NoSign => [] | Plus => ["+"%char] | Minus => ["-"%char] end.

Definition is_neg (s : sign) : bool := match s with Minus => true | _ => false end.

Fixpoint span_digits (l : list ascii) : list ascii * list ascii :=
  match l with
  | c :: r =>
      if is_digit c then let '(d, rest) := span_digits r in (c :: d, rest)
      else ([], l)
  | [] => ([], [])
  end.

Definition digits_value (ds : list ascii) : Z :=
  fold_left (fun acc c => (acc * 10 + digit_val c)%Z) ds 0%Z.

(** Exceptions the modelled code can raise. *)
Inductive exc := ValueError | TypeError.

(** Base-10 digits of [int()]: [digit ('_'? digit)*]; the underscores
    are dropped. *)
Fixpoint us_digits (l : list ascii) : option (list ascii) :=
  match l with
  | [] => None
  | c :: r =>
      if is_digit c then
        match r with
        | [] => Some [c]
        | u :: r' =>
            if Ascii.eqb u "_"%char then option_map (cons c) (us_digits r')
            else option_map (cons c) (us_digits r)
        end
      else None
  end.

(** CPython's default [sys.get_int_max_str_digits()]. *)
Definition int_max_str_digits : nat := 4300.

(** [int(s)] for a [str] argument: only [ValueError] can be raised. *)
Definition py_int (s : string) : Z + exc :=
  match py_transform (list_ascii_of_string s) with
  | None => inr ValueError
  | Some l =>
      let '(sg, r) := take_sign (py_strip l) in
      match us_digits r with
      | None => inr ValueError
      | Some ds =>
          if (int_max_str_digits <? length ds)%nat then inr ValueError
          else inl (if is_neg sg then - digits_value ds else digits_value ds)%Z
      end
  end.

(* ------------------------------------------------------------------ *)
(** ** Responses and menus *)

Record ussd_response := mk_response {
  response : string;           (* "CON" or "END" *)
  message : string;
  resp_sessionid : option string  (* the "sessionid" key, when present *)
}.

Definition create_ussd_response (message : string) (continue_session : bool)
    (sessionid : option string) : ussd_response :=
  {| response := if continue_session then "CON" else "END";
     message := message;
     resp_sessionid :=
       match sessionid with
       | Some s => if String.eqb s "" then None else Some s
       | None => None
       end |}.

(** The source writes ["\\n"] in its f-strings: a backslash followed by
    the letter n, not a newline. *)
Definition bs_n : string := String "092"%char (String "n"%char EmptyString).

Fixpoint nat_to_digits (fuel n : nat) : string :=
  match fuel with
  | O => ""
  | S f =>
      if (n <? 10)%nat then String (ascii_of_nat (48 + n)) ""
      else nat_to_digits f (n / 10) ++ String (ascii_of_nat (48 + n mod 10)) ""
  end.

(** [str(i)] for a non-negative integer. *)
Definition py_str_nat (n : nat) : string := nat_to_digits (S n) n.

Fixpoint menu_options (i : nat) (options : list string) : string :=
  match options with
  | [] => ""
  | o :: rest => py_str_nat i ++ ". " ++ o ++ bs_n ++ menu_options (S i) rest
  end.

Definition create_ussd_menu (title : string) (options : list string)
    (footer : option string) : string :=
  let menu := title ++ bs_n ++ menu_options 1 options in
  match footer with
  | Some f => if String.eqb f "" then menu else menu ++ bs_n ++ f
  | None => menu
  end.

(* ------------------------------------------------------------------ *)
(** ** Session store ([self._ussd_sessions]) *)

(** Values stored in a session ([Dict[str, Any]]). *)
Inductive pyval :=
| VInt (z : Z)
| VStr (s : string)
| VBool (b : bool)
| VNone.

(** A session is the dict [{"step": ..., "data": {...}}]. *)
Record session := mk_session {
  step : pyval;
  data : gmap string pyval
}.

Definition fresh_session : session := {| step := VInt 0; data := ∅ |}.

Abbreviation store := (gmap string session).

(** [get_ussd_session]: returns the session and the new store. *)
Definition get_ussd_session (st : store) (sessionid : string) : session * store :=
  match st !! sessionid with
  | Some sess => (sess, st)
  | None => (fresh_session, <[sessionid := fresh_session]> st)
  end.

(** One iteration of the loop body of [update_ussd_session]. *)
Definition update_field (sess : session) (kv : string * pyval) : session :=
  let '(key, value) := kv in
  if String.eqb key "step" then {| step := value; data := data sess |}
  else {| step := step sess; data := <[key := value]> (data sess) |}.

(** [update_ussd_session]: [fields] is [data.items()] in iteration order. *)
Definition update_ussd_session (st : store) (sessionid : string)
    (fields : list (string * pyval)) : store :=
  match st !! sessionid with
  | Some sess => <[sessionid := fold_left update_field fields sess]> st
  | None => st
  end.

Definition clear_ussd_session (st : store) (sessionid : string) : store :=
  match st !! sessionid with
  | Some _ => delete sessionid st
  | None => st
  end.

(* ------------------------------------------------------------------ *)
(** ** [handle_ussd_request] *)

(** The inbound [session_data] dict; [None] is an absent key. *)
Record event := mk_event {
  ev_sessionid : option string;
  ev_msisdn : option string;
  ev_msg : option string;
  ev_msgtype : option bool
}.

(** [dict.get(key, default)]. *)
Definition dict_get {A} (v : option A) (dflt : A) : A :=
  match v with Some x => x | None => dflt end.

Definition sessionid_of (ev : event) : string := dict_get (ev_sessionid ev) "".
Definition msg_of (ev : event) : string := dict_get (ev_msg ev) "".
Definition msgtype_of (ev : event) : bool := dict_get (ev_msgtype ev) true.

Definition welcome_menu : string :=
  create_ussd_menu "Welcome to Nalo Services"
    ["Check Balance"; "Send Money"; "Buy Airtime"; "Help"] None.

Definition handle_ussd_request (st : store) (session_data : event)
    : (ussd_response * store) + exc :=
  let sessionid := sessionid_of session_data in
  let _msisdn := dict_get (ev_msisdn session_data) "" in
  let msg := msg_of session_data in
  let msgtype := msgtype_of session_data in
  if String.eqb sessionid "" then
    inl (create_ussd_response "Session error occurred" false None, st)
  else if negb msgtype then
    inl (create_ussd_response "Session has ended. Thank you!" false None, st)
  else
    let '(_session, st) := get_ussd_session st sessionid in
    if String.eqb msg "" then
      inl (create_ussd_response welcome_menu true (Some sessionid), st)
    else
      match py_int msg with
      | inl selection =>
          if existsb (Z.eqb selection) [1; 2; 3; 4]%Z then
            if (selection =? 1)%Z then
              inl (create_ussd_response "Your balance is GHS 100.00" false
                     (Some sessionid), st)
            else if (selection =? 4)%Z then
              inl (create_ussd_response "For help, call 123. Thank you!" false
                     (Some sessionid), st)
            else
              inl (create_ussd_response "Service not available. Thank you!" false
                     (Some sessionid), st)
          else
            inl (create_ussd_response "Invalid selection. Please try again." false
                   (Some sessionid), st)
      | inr ValueError =>
          inl (create_ussd_response "Invalid input. Please enter a number." false
                 (Some sessionid), st)
      | inr e => inr e
      end.

(** The response part of a call, without the resulting store. *)
Definition handle_response (st : store) (ev : event) : ussd_response + exc :=
  match handle_ussd_request st ev with
  | inl (r, _) => inl r
  | inr e => inr e
  end.

(* ------------------------------------------------------------------ *)
(** ** [float()] and [validate_amount] *)

(** A parsed float literal: [FFin neg m e] is the exact decimal value
    [(-1)^neg * m * 10^e] before rounding to binary64. *)
Inductive pyfloat :=
| FFin (neg : bool) (m e : Z)
| FInf (neg : bool)
| FNan.

Definition is_underscore (c : ascii) : bool := Ascii.eqb c "_"%char.

(** [_Py_string_to_number_with_underscores]: an underscore must follow a
    digit and precede a digit; the underscores are removed. *)
Fixpoint drop_underscores (prev : ascii) (l : list ascii) : option (list ascii) :=
  match l with
  | [] => if is_underscore prev then None else Some []
  | c :: r =>
      if is_underscore c then
        if is_digit prev then drop_underscores c r else None
      else if is_underscore prev && negb (is_digit c) then None
      else option_map (cons c) (drop_underscores c r)
  end.

Definition parse_exponent (l : list ascii) : option Z :=
  match l with
  | [] => Some 0%Z
  | c :: r =>
      if Ascii.eqb c "e"%char || Ascii.eqb c "E"%char then
        let '(sg, r1) := take_sign r in
        let '(de, r2) := span_digits r1 in
        match de, r2 with
        | _ :: _, [] =>
            Some (if is_neg sg then - digits_value de else digits_value de)%Z
        | _, _ => None
        end
      else None
  end.

(** [_Py_dg_strtod] on the whole (unsigned) string:
    [digits ('.' digits)? (('e'|'E') sign? digits)?] with at least one
    mantissa digit. *)
Definition parse_decimal (l : list ascii) : option (Z * Z) :=
  let '(d1, r1) := span_digits l in
  let '(d2, r2) :=
    match r1 with
    | c :: t => if Ascii.eqb c "."%char then span_digits t else ([], r1)
    | [] => ([], [])
    end in
  match (d1 ++ d2)%list with
  | [] => None
  | _ :: _ =>
      match parse_exponent r2 with
      | Some ex => Some (digits_value ((d1 ++ d2)%list), ex - Z.of_nat (length d2))%Z
      | None => None
      end
  end.

Definition to_lower (c : ascii) : ascii :=
  if (65 <=? code c)%nat && (code c <=? 90)%nat then ascii_of_nat (code c + 32) else c.

(** [_Py_parse_inf_or_nan] (case-insensitive). *)
Definition parse_inf_or_nan (neg : bool) (l : list ascii) : option pyfloat :=
  let w := string_of_list_ascii (map to_lower l) in
  if String.eqb w "inf" || String.eqb w "infinity" then Some (FInf neg)
  else if String.eqb w "nan" then Some FNan
  else None.

Definition float_body (l : list ascii) : option pyfloat :=
  let '(sg, r) := take_sign l in
  match parse_decimal r with
  | Some (m, e) => Some (FFin (is_neg sg) m e)
  | None => parse_inf_or_nan (is_neg sg) r
  end.

(** [float(s)] for a [str]; [None] is the [ValueError]. *)
Definition py_float (s : string) : option pyfloat :=
  match py_transform (list_ascii_of_string s) with
  | None => None
  | Some l =>
      let l := py_strip l in
      if existsb is_underscore l then
        match drop_underscores "000"%char l with
        | Some l' => float_body l'
        | None => None
        end
      else float_body l
  end.

(** A positive decimal [m * 10^e] rounds (to nearest, ties to even) to
    [0.0] exactly when it is at most half the least subnormal, 2^-1075. *)
Definition rounds_to_zero (m e : Z) : bool :=
  if (0 <=? e)%Z then (m =? 0)%Z else (m * 2 ^ 1075 <=? 10 ^ (- e))%Z.

(** [amount <= 0] on the binary64 value of the literal; NaN compares
    false. *)
Definition float_le_zero (f : pyfloat) : bool :=
  match f with
  | FFin neg m e => neg || rounds_to_zero m e
  | FInf neg => neg
  | FNan => false
  end.

(** [str.split(sep)] for a one-character separator. *)
Fixpoint py_split (sep : ascii) (l : list ascii) : list (list ascii) :=
  match l with
  | [] => [[]]
  | c :: r =>
      let parts := py_split sep r in
      if Ascii.eqb c sep then [] :: parts
      else match parts with
           | p :: ps => (c :: p) :: ps
           | [] => [[c]]
           end
  end.

(** [validate_amount]; the index [1] exists because ["."] occurs. *)
Definition validate_amount (amount_str : string) : bool :=
  match py_float amount_str with
  | None => false
  | Some amount =>
      if float_le_zero amount then false
      else
        let l := list_ascii_of_string amount_str in
        if existsb (fun c => Ascii.eqb c "."%char) l then
          let decimal_part := nth 1 (py_split "."%char l) [] in
          (length decimal_part <=? 2)%nat
        else true
  end.

(** The reading of [validate_amount] in the spec: a plain decimal literal
    (sign, digits, optionally '.' and digits), strictly positive, with at
    most two digits after the point. *)
Definition parse_plain_decimal (l : list ascii)
    : option (sign * list ascii * option (list ascii)) :=
  let '(sg, r) := take_sign l in
  let '(d1, r1) := span_digits r in
  match r1 with
  | [] => match d1 with [] => None | _ => Some (sg, d1, None) end
  | c :: r2 =>
      if Ascii.eqb c "."%char then
        let '(d2, r3) := span_digits r2 in
        match r3, (d1 ++ d2)%list with
        | [], _ :: _ => Some (sg, d1, Some d2)
        | _, _ => None
        end
      else None
  end.

Definition amount_spec (s : string) : bool :=
  match parse_plain_decimal (list_ascii_of_string s) with
  | None => false
  | Some (sg, d1, od2) =>
      let d2 := dict_get od2 [] in
      negb (is_neg sg) && (0 <? digits_value ((d1 ++ d2)%list))%Z && (length d2 <=? 2)%nat
  end.

(* ================================================================== *)
(** * Properties *)

(** ** Helper lemmas *)

Lemma py_int_only_value_error (s : string) (e : exc) :
  py_int s = inr e -> e = ValueError.
Proof.
  unfold py_int. destruct (py_transform _) as [l|]; [|congruence].
  destruct (take_sign (py_strip l)) as [sg r].
  destruct (us_digits r) as [ds|]; [|congruence].
  destruct (_ <? _)%nat; congruence.
Qed.

Lemma py_int_empty : py_int "" = inr ValueError.
Proof. reflexivity. Qed.

Lemma py_int_inl_nonempty (s : string) (n : Z) : py_int s = inl n -> s <> "".
Proof. intros H ->. rewrite py_int_empty in H. discriminate. Qed.

Lemma create_response_some (m : string) (b : bool) (sid : string) :
  sid <> "" ->
  create_ussd_response m b (Some sid) =
  mk_response (if b then "CON" else "END") m (Some sid).
Proof.
  intros H. unfold create_ussd_response.
  apply String.eqb_neq in H. rewrite H. reflexivity.
Qed.

(** Unfolds one request down to the menu-selection code. *)
Ltac open_request Hsid Hty :=
  unfold handle_response, handle_ussd_request;
  let E := fresh "E" in
  pose proof Hsid as E; apply String.eqb_neq in E; rewrite E; clear E;
  rewrite Hty; simpl negb; cbv iota;
  destruct (get_ussd_session _ _) as [? ?].

(** ** C1 *)

(** Claim C1: [handle_ussd_request] decides by fixed precedence.  An
    empty (or absent) sessionid gives an END response with an error text
    and no sessionid key, whatever msg and msgtype are; otherwise a false
    msgtype gives an END response with a closing message; otherwise an
    empty msg gives a CON response with the welcome menu and the echoed
    sessionid.  The welcome menu starts with "Welcome". *)
Theorem handle_precedence (st : store) (ev : event) :
  (sessionid_of ev = "" ->
     handle_ussd_request st ev =
       inl (mk_response "END" "Session error occurred" None, st)) /\
  (sessionid_of ev <> "" -> msgtype_of ev = false ->
     handle_ussd_request st ev =
       inl (mk_response "END" "Session has ended. Thank you!" None, st)) /\
  (sessionid_of ev <> "" -> msgtype_of ev = true -> msg_of ev = "" ->
     handle_ussd_request st ev =
       inl (mk_response "CON" welcome_menu (Some (sessionid_of ev)),
            snd (get_ussd_session st (sessionid_of ev)))) /\
  String.prefix "Welcome" welcome_menu = true.
Proof.
  unfold handle_ussd_request. split; [|split; [|split]].
  - intros H. rewrite H. reflexivity.
  - intros H Hty. apply String.eqb_neq in H. rewrite H, Hty. reflexivity.
  - intros H Hty Hmsg. pose proof H as H'. apply String.eqb_neq in H'.
    rewrite H', Hty, Hmsg. simpl negb; cbv iota.
    destruct (get_ussd_session st (sessionid_of ev)) as [s st'].
    simpl. rewrite create_response_some by exact H. reflexivity.
  - reflexivity.
Qed.

Lemma handle_precedence_witness :
  handle_ussd_request ∅ (mk_event (Some "") None (Some "1") (Some true)) =
    inl (mk_response "END" "Session error occurred" None, ∅) /\
  handle_ussd_request ∅ (mk_event (Some "A") None (Some "1") (Some false)) =
    inl (mk_response "END" "Session has ended. Thank you!" None, ∅) /\
  handle_ussd_request ∅ (mk_event (Some "A") None (Some "") (Some true)) =
    inl (mk_response "CON" welcome_menu (Some "A"),
         snd (get_ussd_session ∅ "A")).
Proof.
  split; [|split].
  - apply (proj1 (handle_precedence ∅ (mk_event (Some "") None (Some "1") (Some true)))).
    reflexivity.
  - apply (proj1 (proj2 (handle_precedence ∅
             (mk_event (Some "A") None (Some "1") (Some false))))); [discriminate | reflexivity].
  - apply (proj1 (proj2 (proj2 (handle_precedence ∅
             (mk_event (Some "A") None (Some "") (Some true))))));
      [discriminate | reflexivity | reflexivity].
Defined.

(** ** C2 *)

(** Claim C2: with a non-empty sessionid, a true msgtype and a msg that
    [int()] parses to n in {1,2,3,4}, the response is END with the
    sessionid echoed: the balance for 1, the help text for 4 and the
    "service not available" text for 2 and 3 (never CON). *)
Theorem handle_valid_selection (st : store) (ev : event) (n : Z) :
  sessionid_of ev <> "" -> msgtype_of ev = true ->
  py_int (msg_of ev) = inl n -> (1 <= n <= 4)%Z ->
  handle_response st ev =
    inl (mk_response "END"
           (if (n =? 1)%Z then "Your balance is GHS 100.00"
            else if (n =? 4)%Z then "For help, call 123. Thank you!"
            else "Service not available. Thank you!")
           (Some (sessionid_of ev))).
Proof.
  intros Hsid Hty Hint Hn.
  pose proof (py_int_inl_nonempty _ _ Hint) as Hmsg.
  open_request Hsid Hty.
  apply String.eqb_neq in Hmsg. rewrite Hmsg, Hint.
  assert (n = 1 \/ n = 2 \/ n = 3 \/ n = 4)%Z as Hc by lia.
  destruct Hc as [-> | [-> | [-> | ->]]]; simpl;
    rewrite create_response_some by exact Hsid; reflexivity.
Qed.

Lemma handle_valid_selection_witness :
  handle_response ∅ (mk_event (Some "A") None (Some "1") (Some true)) =
    inl (mk_response "END" "Your balance is GHS 100.00" (Some "A")).
Proof.
  apply (handle_valid_selection ∅ (mk_event (Some "A") None (Some "1") (Some true)) 1);
    [discriminate | reflexivity | reflexivity | lia].
Defined.

(** ** C3 *)

(** Claim C3: with a non-empty sessionid, a true msgtype and a non-empty
    msg, an integer outside {1,2,3,4} gives END "Invalid selection ..."
    and a msg [int()] rejects gives END "Invalid input ...", both with
    the sessionid echoed. *)
Theorem handle_invalid_selection (st : store) (ev : event) :
  sessionid_of ev <> "" -> msgtype_of ev = true -> msg_of ev <> "" ->
  (forall n, py_int (msg_of ev) = inl n -> (n < 1 \/ 4 < n)%Z ->
     handle_response st ev =
       inl (mk_response "END" "Invalid selection. Please try again."
              (Some (sessionid_of ev)))) /\
  ((exists e, py_int (msg_of ev) = inr e) ->
     handle_response st ev =
       inl (mk_response "END" "Invalid input. Please enter a number."
              (Some (sessionid_of ev)))).
Proof.
  intros Hsid Hty Hmsg. apply String.eqb_neq in Hmsg. split.
  - intros n Hint Hn. open_request Hsid Hty. rewrite Hmsg, Hint.
    simpl existsb.
    replace (n =? 1)%Z with false by lia. replace (n =? 2)%Z with false by lia.
    replace (n =? 3)%Z with false by lia. replace (n =? 4)%Z with false by lia.
    simpl. rewrite create_response_some by exact Hsid. reflexivity.
  - intros [e Hint]. pose proof (py_int_only_value_error _ _ Hint); subst e.
    open_request Hsid Hty. rewrite Hmsg, Hint.
    simpl. rewrite create_response_some by exact Hsid. reflexivity.
Qed.

Lemma handle_invalid_selection_witness :
  handle_response ∅ (mk_event (Some "A") None (Some "9") (Some true)) =
    inl (mk_response "END" "Invalid selection. Please try again." (Some "A")) /\
  handle_response ∅ (mk_event (Some "A") None (Some "abc") (Some true)) =
    inl (mk_response "END" "Invalid input. Please enter a number." (Some "A")).
Proof.
  split.
  - apply (proj1 (handle_invalid_selection ∅
             (mk_event (Some "A") None (Some "9") (Some true))
             ltac:(discriminate) eq_refl ltac:(discriminate)) 9%Z); [reflexivity | lia].
  - apply (proj2 (handle_invalid_selection ∅
             (mk_event (Some "A") None (Some "abc") (Some true))
             ltac:(discriminate) eq_refl ltac:(discriminate))).
    exists ValueError. reflexivity.
Defined.

(** ** C4 *)

(** Claim C4: [handle_ussd_request] never raises: for every event (any
    of its four keys present or absent) it returns a response whose
    "response" is "CON" or "END" (its "message" is a string). *)
Theorem handle_total (st : store) (ev : event) :
  exists r st', handle_ussd_request st ev = inl (r, st') /\
                (response r = "CON" \/ response r = "END").
Proof.
  unfold handle_ussd_request.
  destruct (String.eqb (sessionid_of ev) ""); [eauto|].
  destruct (negb (msgtype_of ev)); [eauto|].
  destruct (get_ussd_session st (sessionid_of ev)) as [s st'].
  destruct (String.eqb (msg_of ev) ""); [eauto|].
  destruct (py_int (msg_of ev)) as [z|e] eqn:Hint.
  - destruct (existsb _ _); [|eauto].
    destruct (z =? 1)%Z; [eauto|]. destruct (z =? 4)%Z; eauto.
  - pose proof (py_int_only_value_error _ _ Hint); subst e. eauto.
Qed.

(** ** C10 *)

(** Claim C10: the response depends on the event only: for any two
    stores (fresh, or changed by [update_ussd_session]) the same event
    gets the same response; the stored step and data are never read. *)
Theorem handle_response_store_independent (st1 st2 : store) (ev : event) :
  handle_response st1 ev = handle_response st2 ev.
Proof.
  unfold handle_response, handle_ussd_request.
  destruct (String.eqb (sessionid_of ev) ""); [reflexivity|].
  destruct (negb (msgtype_of ev)); [reflexivity|].
  destruct (get_ussd_session st1 (sessionid_of ev)) as [s1 st1'].
  destruct (get_ussd_session st2 (sessionid_of ev)) as [s2 st2'].
  destruct (String.eqb (msg_of ev) ""); [reflexivity|].
  destruct (py_int (msg_of ev)) as [z|[|]]; [|reflexivity|reflexivity].
  destruct (existsb _ _); [|reflexivity].
  destruct (z =? 1)%Z; [reflexivity|]. destruct (z =? 4)%Z; reflexivity.
Qed.

(** ** C5 *)

(** Claim C5: [get_ussd_session] on an absent id stores and returns
    [{step: 0, data: {}}]; on a present id it returns the stored session
    unchanged and leaves the store as it is; either way the returned
    session is the one stored under the id. *)
Theorem get_ussd_session_spec (st : store) (s : string) :
  (st !! s = None ->
     get_ussd_session st s = (fresh_session, <[s := fresh_session]> st)) /\
  (forall sess, st !! s = Some sess -> get_ussd_session st s = (sess, st)) /\
  snd (get_ussd_session st s) !! s = Some (fst (get_ussd_session st s)).
Proof.
  unfold get_ussd_session. split; [|split].
  - intros H. rewrite H. reflexivity.
  - intros sess H. rewrite H. reflexivity.
  - destruct (st !! s) as [sess|] eqn:H; simpl.
    + exact H.
    + apply lookup_insert_eq.
Qed.

Lemma get_ussd_session_spec_witness :
  get_ussd_session ∅ "A" = (fresh_session, <["A" := fresh_session]> ∅) /\
  get_ussd_session {["A" := mk_session (VInt 3) ∅]} "A" =
    (mk_session (VInt 3) ∅, {["A" := mk_session (VInt 3) ∅]}).
Proof.
  split.
  - apply (proj1 (get_ussd_session_spec ∅ "A")). apply lookup_empty.
  - apply (proj1 (proj2 (get_ussd_session_spec {["A" := mk_session (VInt 3) ∅]} "A"))).
    apply lookup_singleton_eq.
Defined.

(** ** C6 *)

Lemma update_fields_spec (fields : list (string * pyval)) (sess : session) :
  List.NoDup (map fst fields) ->
  let sess' := fold_left update_field fields sess in
  (forall k v, In (k, v) fields ->
     (k = "step" -> step sess' = v) /\ (k <> "step" -> data sess' !! k = Some v)) /\
  (forall k, (~ In k (map fst fields) \/ k = "step") -> data sess' !! k = data sess !! k) /\
  (~ In "step" (map fst fields) -> step sess' = step sess).
Proof.
  revert sess. induction fields as [|[k v] rest IH]; intros sess Hnd; cbv zeta.
  - simpl. split; [|split]; [tauto | reflexivity | reflexivity].
  - change (fold_left update_field ((k, v) :: rest) sess)
      with (fold_left update_field rest (update_field sess (k, v))).
    inversion Hnd as [|? ? Hk Hnd']; subst. simpl in Hk.
    destruct (IH (update_field sess (k, v)) Hnd') as (Hin & Hdata & Hstep).
    set (sess' := fold_left update_field rest (update_field sess (k, v))) in *.
    split; [|split].
    + intros k' v' [Heq | Hr].
      * injection Heq as <- <-. split.
        -- intros ->. rewrite Hstep by exact Hk. reflexivity.
        -- intros Hne. rewrite Hdata by tauto. simpl.
           apply String.eqb_neq in Hne. rewrite Hne. apply lookup_insert_eq.
      * apply Hin. exact Hr.
    + intros k' Hk'. simpl in Hk'. rewrite Hdata by tauto. simpl.
      destruct (String.eqb_spec k "step"); [reflexivity|]. simpl.
      apply lookup_insert_ne. intros ->. destruct Hk'; tauto.
    + intros Hs. simpl in Hs. rewrite Hstep by tauto. simpl.
      destruct (String.eqb_spec k "step"); [subst; tauto | reflexivity].
Qed.

(** Claim C6: [update_ussd_session] on a present id writes a "step" entry
    to the top-level step and every other entry into the data mapping,
    leaving everything else as it was; on an absent id it changes
    nothing.  In particular, after creation, the update
    [{"step": 2, "x": "y"}] yields [{step: 2, data: {"x": "y"}}]. *)
Theorem update_ussd_session_spec (st : store) (s : string)
    (fields : list (string * pyval)) :
  List.NoDup (map fst fields) ->
  (st !! s = None -> update_ussd_session st s fields = st) /\
  (forall sess, st !! s = Some sess ->
     exists sess', update_ussd_session st s fields = <[s := sess']> st /\
       (forall k v, In (k, v) fields ->
          (k = "step" -> step sess' = v) /\ (k <> "step" -> data sess' !! k = Some v)) /\
       (forall k, (~ In k (map fst fields) \/ k = "step") ->
          data sess' !! k = data sess !! k) /\
       (~ In "step" (map fst fields) -> step sess' = step sess)) /\
  (st !! s = None ->
     update_ussd_session (snd (get_ussd_session st s)) s
       [("step", VInt 2); ("x", VStr "y")] !! s =
     Some (mk_session (VInt 2) {["x" := VStr "y"]})).
Proof.
  intros Hnd. unfold update_ussd_session. split; [|split].
  - intros H. rewrite H. reflexivity.
  - intros sess H. rewrite H. exists (fold_left update_field fields sess).
    split; [reflexivity|]. apply update_fields_spec. exact Hnd.
  - intros H. unfold get_ussd_session. rewrite H. simpl.
    rewrite lookup_insert_eq, lookup_insert_eq. simpl.
    rewrite insert_empty. reflexivity.
Qed.

Lemma update_ussd_session_spec_witness :
  update_ussd_session ∅ "A" [("step", VInt 2); ("x", VStr "y")] = ∅ /\
  update_ussd_session (snd (get_ussd_session ∅ "A")) "A"
    [("step", VInt 2); ("x", VStr "y")] !! "A" =
    Some (mk_session (VInt 2) {["x" := VStr "y"]}).
Proof.
  assert (Hnd : List.NoDup (map fst [("step", VInt 2); ("x", VStr "y")])).
  { simpl. constructor; [simpl; intros [H|[]]; discriminate|].
    constructor; [simpl; tauto | constructor]. }
  split.
  - apply (proj1 (update_ussd_session_spec ∅ "A" _ Hnd)). apply lookup_empty.
  - apply (proj2 (proj2 (update_ussd_session_spec ∅ "A" _ Hnd))). apply lookup_empty.
Defined.

(** ** C7 *)

(** Claim C7: [clear_ussd_session] leaves a store without the id
    unchanged, clearing twice is clearing once, and a [get_ussd_session]
    after a clear creates and returns a fresh [{step: 0, data: {}}]. *)
Theorem clear_ussd_session_spec (st : store) (s : string) :
  (st !! s = None -> clear_ussd_session st s = st) /\
  clear_ussd_session (clear_ussd_session st s) s = clear_ussd_session st s /\
  clear_ussd_session st s !! s = None /\
  get_ussd_session (clear_ussd_session st s) s =
    (fresh_session, <[s := fresh_session]> (clear_ussd_session st s)).
Proof.
  assert (Hc : clear_ussd_session st s !! s = None).
  { unfold clear_ussd_session. destruct (st !! s) eqn:H.
    - apply lookup_delete_eq.
    - exact H. }
  split; [|split; [|split]].
  - intros H. unfold clear_ussd_session. rewrite H. reflexivity.
  - unfold clear_ussd_session at 1. rewrite Hc. reflexivity.
  - exact Hc.
  - unfold get_ussd_session. rewrite Hc. reflexivity.
Qed.

Lemma clear_ussd_session_spec_witness :
  clear_ussd_session ∅ "A" = ∅.
Proof.
  apply (proj1 (clear_ussd_session_spec ∅ "A")). apply lookup_empty.
Defined.

(** ** C8 *)

(** Claim C8 (code defect): [create_ussd_menu "T" ["a"] None] is
    [T] backslash [n] [1. a] backslash [n]: the f-strings ["\\n"] put the
    two characters backslash and n between the parts, and the result
    contains no newline character (code 10). *)
Theorem create_ussd_menu_no_newline :
  create_ussd_menu "T" ["a"] None = "T" ++ bs_n ++ "1. a" ++ bs_n /\
  list_ascii_of_string bs_n = ["092"%char; "n"%char] /\
  existsb (fun c => Ascii.eqb c "010"%char)
    (list_ascii_of_string (create_ussd_menu "T" ["a"] None)) = false.
Proof. split; [|split]; reflexivity. Qed.

(** ** C9 *)

Local Open Scope list_scope.

(** Characters of a plain decimal literal. *)
Definition plain_char (c : ascii) : bool :=
  is_digit c || Ascii.eqb c "."%char || Ascii.eqb c "+"%char || Ascii.eqb c "-"%char.

Lemma plain_char_facts (c : ascii) :
  plain_char c = true ->
  py_space c = false /\ (code c <? 128)%nat = true /\ is_underscore c = false.
Proof.
  destruct c as [[] [] [] [] [] [] [] []]; vm_compute;
    intros H; first [discriminate H | split; [|split]; reflexivity].
Qed.

Lemma digit_not_sign_dot (c : ascii) :
  is_digit c = true ->
  Ascii.eqb c "."%char = false /\ Ascii.eqb c "+"%char = false /\
  Ascii.eqb c "-"%char = false /\ Ascii.eqb c "e"%char = false /\
  Ascii.eqb c "E"%char = false.
Proof.
  destruct c as [[] [] [] [] [] [] [] []]; vm_compute;
    intros H; first [discriminate H | repeat split].
Qed.

Lemma digit_val_nonneg (c : ascii) : is_digit c = true -> (0 <= digit_val c)%Z.
Proof.
  unfold is_digit, digit_val. intros H.
  apply andb_prop in H as [H _]. apply Nat.leb_le in H. lia.
Qed.

Lemma digits_value_nonneg (ds : list ascii) :
  Forall (fun c => is_digit c = true) ds -> (0 <= digits_value ds)%Z.
Proof.
  unfold digits_value.
  assert (Hgen : forall acc, (0 <= acc)%Z -> Forall (fun c => is_digit c = true) ds ->
            (0 <= fold_left (fun acc c => (acc * 10 + digit_val c)%Z) ds acc)%Z).
  { induction ds as [|c ds IH]; intros acc Hacc Hall; simpl; [exact Hacc|].
    inversion Hall as [|? ? Hc Hall']; subst.
    apply IH; [|exact Hall']. pose proof (digit_val_nonneg c Hc). lia. }
  intros Hall. apply Hgen; [lia | exact Hall].
Qed.

Lemma span_digits_app (d tail : list ascii) :
  Forall (fun c => is_digit c = true) d ->
  (forall c t, tail = c :: t -> is_digit c = false) ->
  span_digits (d ++ tail) = (d, tail).
Proof.
  intros Hd Ht. induction Hd as [|c d Hc Hd IH]; simpl.
  - destruct tail as [|c t]; [reflexivity|].
    simpl. rewrite (Ht c t eq_refl). reflexivity.
  - rewrite Hc, IH. reflexivity.
Qed.

Lemma span_digits_inv (l d r : list ascii) :
  span_digits l = (d, r) ->
  l = d ++ r /\ Forall (fun c => is_digit c = true) d /\
  (forall c t, r = c :: t -> is_digit c = false).
Proof.
  revert d r. induction l as [|c l IH]; intros d r H; simpl in H.
  - injection H as <- <-. split; [reflexivity|split; [constructor|discriminate]].
  - destruct (is_digit c) eqn:Hc.
    + destruct (span_digits l) as [d' r'] eqn:E. injection H as <- <-.
      destruct (IH d' r' eq_refl) as (-> & Hd & Hr).
      split; [reflexivity|split; [constructor; assumption|exact Hr]].
    + injection H as <- <-. split; [reflexivity|split; [constructor|]].
      intros c' t [= <- <-]. exact Hc.
Qed.

Lemma take_sign_inv (l r : list ascii) (sg : sign) :
  take_sign l = (sg, r) -> l = sign_chars sg ++ r.
Proof.
  destruct l as [|c t]; simpl; [intros [= <- <-]; reflexivity|].
  destruct (Ascii.eqb_spec c "+"%char) as [->|_]; [intros [= <- <-]; reflexivity|].
  destruct (Ascii.eqb_spec c "-"%char) as [->|_]; intros [= <- <-]; reflexivity.
Qed.

Definition dot_part (od2 : option (list ascii)) : list ascii :=
  match od2 with Some d2 => "."%char :: d2 | None => [] end.

Lemma parse_plain_decimal_inv (l : list ascii) sg d1 od2 :
  parse_plain_decimal l = Some (sg, d1, od2) ->
  l = sign_chars sg ++ d1 ++ dot_part od2 /\
  Forall (fun c => is_digit c = true) d1 /\
  Forall (fun c => is_digit c = true) (dict_get od2 []) /\
  (d1 ++ dict_get od2 [])%list <> [].
Proof.
  unfold parse_plain_decimal.
  destruct (take_sign l) as [sg0 r] eqn:Hs. apply take_sign_inv in Hs. subst l.
  destruct (span_digits r) as [d r1] eqn:Hd. apply span_digits_inv in Hd as (-> & Hd & _).
  destruct r1 as [|c r2].
  - destruct d as [|c d]; [discriminate|]. intros [= <- <- <-]. simpl.
    rewrite app_nil_r. split; [reflexivity|split; [exact Hd|split; [constructor|discriminate]]].
  - destruct (Ascii.eqb_spec c "."%char) as [->|_]; [|discriminate].
    destruct (span_digits r2) as [d2 r3] eqn:Hd2.
    apply span_digits_inv in Hd2 as (-> & Hd2 & _).
    destruct r3; [|discriminate].
    destruct (d ++ d2)%list eqn:E; [discriminate|]. intros [= <- <- <-].
    simpl. rewrite app_nil_r, E.
    split; [reflexivity|split; [exact Hd|split; [exact Hd2|discriminate]]].
Qed.

Lemma existsb_Forall_false {A} (f : A -> bool) (l : list A) :
  Forall (fun x => f x = false) l -> existsb f l = false.
Proof. induction 1 as [|x l Hx _ IH]; simpl; [reflexivity|]. rewrite Hx, IH. reflexivity. Qed.

Lemma lstrip_nospace (l : list ascii) :
  Forall (fun c => py_space c = false) l -> lstrip l = l.
Proof. intros H. destruct H as [|c l Hc _]; simpl; [reflexivity|]. rewrite Hc. reflexivity. Qed.

Lemma py_split_app (sep : ascii) (a b : list ascii) :
  Forall (fun c => Ascii.eqb c sep = false) a ->
  py_split sep (a ++ sep :: b) = a :: py_split sep b.
Proof.
  induction 1 as [|c a Hc _ IH]; simpl.
  - rewrite Ascii.eqb_refl. reflexivity.
  - rewrite IH, Hc. reflexivity.
Qed.

Lemma py_split_nosep (sep : ascii) (b : list ascii) :
  Forall (fun c => Ascii.eqb c sep = false) b -> py_split sep b = [b].
Proof.
  induction 1 as [|c b Hc _ IH]; simpl; [reflexivity|].
  rewrite IH, Hc. reflexivity.
Qed.

Section PlainLiteral.
Variables (sg : sign) (d1 : list ascii) (od2 : option (list ascii)).
Hypothesis Hd1 : Forall (fun c => is_digit c = true) d1.
Hypothesis Hd2 : Forall (fun c => is_digit c = true) (dict_get od2 []).
Hypothesis Hne : d1 ++ dict_get od2 [] <> [].

Let body := d1 ++ dot_part od2.
Let lit := sign_chars sg ++ body.

Lemma digits_not (f : ascii -> bool) (ds : list ascii) :
  (forall c, is_digit c = true -> f c = false) ->
  Forall (fun c => is_digit c = true) ds -> Forall (fun c => f c = false) ds.
Proof. intros Hf Hds. eapply Forall_impl; [exact Hds|]. exact Hf. Qed.

Lemma lit_plain : Forall (fun c => plain_char c = true) lit.
Proof using sg Hd1 Hd2 Hne.
  unfold lit, body. apply Forall_app; split; [|apply Forall_app; split].
  - destruct sg; repeat constructor.
  - eapply Forall_impl; [exact Hd1|]. intros c Hc. unfold plain_char. rewrite Hc. reflexivity.
  - destruct od2 as [d2|]; simpl in *; [|constructor].
    constructor; [reflexivity|].
    eapply Forall_impl; [exact Hd2|]. intros c Hc. unfold plain_char. rewrite Hc. reflexivity.
Qed.

Lemma lit_transform_strip :
  py_transform lit = Some lit /\ py_strip lit = lit /\ existsb is_underscore lit = false.
Proof using sg Hd1 Hd2 Hne.
  pose proof lit_plain as Hp.
  assert (Hsp : Forall (fun c => py_space c = false) lit).
  { eapply Forall_impl; [exact Hp|]. intros c Hc. apply (plain_char_facts c Hc). }
  split; [|split].
  - unfold py_transform. replace (forallb _ lit) with true; [reflexivity|].
    symmetry. apply forallb_forall. intros c Hc.
    rewrite List.Forall_forall in Hp. destruct (plain_char_facts c (Hp c Hc)) as (_ & H & _).
    rewrite H. reflexivity.
  - unfold py_strip. rewrite (lstrip_nospace _ Hsp).
    rewrite lstrip_nospace; [apply rev_involutive|]. apply Forall_rev. exact Hsp.
  - apply existsb_Forall_false. eapply Forall_impl; [exact Hp|].
    intros c Hc. apply (plain_char_facts c Hc).
Qed.

Lemma body_take_sign : take_sign lit = (sg, body).
Proof using sg Hd1 Hd2 Hne.
  assert (Hh : forall c t, body = c :: t ->
            Ascii.eqb c "+"%char = false /\ Ascii.eqb c "-"%char = false).
  { unfold body. intros c t. destruct d1 as [|c1 d1'].
    - destruct od2 as [d2|]; simpl; [intros [= <- _]; split; reflexivity | discriminate].
    - intros [= <- _]. inversion Hd1 as [|? ? Hc _]; subst.
      destruct (digit_not_sign_dot c1 Hc) as (_ & H1 & H2 & _). split; assumption. }
  unfold lit. revert Hh. generalize body as b. intros b Hb.
  destruct sg; cbn [sign_chars app]; [|reflexivity|reflexivity].
  unfold take_sign. destruct b as [|c t]; [reflexivity|].
  destruct (Hb c t eq_refl) as [-> ->]. reflexivity.
Qed.

Lemma body_parse_decimal :
  parse_decimal body =
    Some (digits_value (d1 ++ dict_get od2 []), (- Z.of_nat (length (dict_get od2 [])))%Z).
Proof using sg Hd1 Hd2 Hne.
  unfold parse_decimal, body.
  rewrite span_digits_app; [| exact Hd1 |].
  2:{ destruct od2; simpl; [intros c t [= <- _]; reflexivity | discriminate]. }
  destruct od2 as [d2|]; simpl in *.
  - pose proof (span_digits_app d2 [] Hd2 ltac:(discriminate)) as Hs.
    rewrite app_nil_r in Hs. rewrite Hs.
    destruct (d1 ++ d2) eqn:E; [contradiction|]. reflexivity.
  - destruct (d1 ++ []) eqn:E; [contradiction|]. reflexivity.
Qed.

Lemma lit_dot_check :
  (if existsb (fun c => Ascii.eqb c "."%char) lit then
     (length (nth 1 (py_split "."%char lit) []) <=? 2)%nat
   else true) = (length (dict_get od2 []) <=? 2)%nat.
Proof using sg Hd1 Hd2 Hne.
  assert (Hs : Forall (fun c => Ascii.eqb c "."%char = false) (sign_chars sg ++ d1)).
  { apply Forall_app; split; [destruct sg; repeat constructor|].
    apply digits_not; [|exact Hd1]. intros c Hc. apply (digit_not_sign_dot c Hc). }
  unfold lit, body. rewrite app_assoc.
  destruct od2 as [d2|]; simpl in *.
  - rewrite py_split_app by exact Hs.
    rewrite py_split_nosep.
    2:{ apply digits_not; [|exact Hd2]. intros c Hc. apply (digit_not_sign_dot c Hc). }
    rewrite existsb_app, (existsb_Forall_false _ _ Hs). reflexivity.
  - rewrite app_nil_r, (existsb_Forall_false _ _ Hs). reflexivity.
Qed.
End PlainLiteral.

Lemma py_float_plain (s : string) sg d1 od2 :
  Forall (fun c => is_digit c = true) d1 ->
  Forall (fun c => is_digit c = true) (dict_get od2 []) ->
  d1 ++ dict_get od2 [] <> [] ->
  list_ascii_of_string s = sign_chars sg ++ d1 ++ dot_part od2 ->
  py_float s = Some (FFin (is_neg sg) (digits_value (d1 ++ dict_get od2 []))
                          (- Z.of_nat (length (dict_get od2 [])))%Z).
Proof.
  intros Hd1 Hd2 Hne Hl. unfold py_float. rewrite Hl.
  destruct (lit_transform_strip sg d1 od2 Hd1 Hd2 Hne) as (-> & -> & ->).
  pose proof (body_take_sign sg d1 od2 Hd1 Hd2 Hne) as Ht.
  pose proof (body_parse_decimal sg d1 od2 Hd1 Hd2 Hne) as Hd. cbv zeta in Ht, Hd.
  unfold float_body. rewrite Ht, Hd. reflexivity.
Qed.

Lemma rounds_to_zero_small (m : Z) (n : nat) :
  (0 <= m)%Z -> (n <= 2)%nat -> rounds_to_zero m (- Z.of_nat n) = negb (0 <? m)%Z.
Proof.
  intros Hm Hn. unfold rounds_to_zero.
  assert (Hp : (100 < 2 ^ 1075)%Z) by reflexivity.
  remember (2 ^ 1075)%Z as P eqn:HP. clear HP.
  destruct n as [|[|[|n]]]; [| | |lia].
  - change (- Z.of_nat 0)%Z with 0%Z. simpl.
    destruct (Z.eqb_spec m 0), (Z.ltb_spec 0 m); simpl; try reflexivity; lia.
  - change (- Z.of_nat 1)%Z with (-1)%Z. simpl (0 <=? -1)%Z. cbv iota.
    change (10 ^ (- -1))%Z with 10%Z.
    destruct (Z.leb_spec (m * P) 10), (Z.ltb_spec 0 m); simpl; try reflexivity; nia.
  - change (- Z.of_nat 2)%Z with (-2)%Z. simpl (0 <=? -2)%Z. cbv iota.
    change (10 ^ (- -2))%Z with 100%Z.
    destruct (Z.leb_spec (m * P) 100), (Z.ltb_spec 0 m); simpl; try reflexivity; nia.
Qed.

(** Claim C9 (code bug): the claim, like the source's comment "Check if
    amount is positive and has at most 2 decimal places", rejects what is
    not a strictly positive decimal number, and accepts a positive number
    with at most two digits after its '.'. The code does neither on
    these inputs: [float()] parses "nan" and "-nan" to NaN, and [nan <= 0]
    is false, so [validate_amount] accepts them; [float("1.5e1")] is 15,
    but the code counts the three characters "5e1" after the '.' as
    decimal places and rejects it. *)
Theorem validate_amount_accepts_nan :
  py_float "nan" = Some FNan /\ validate_amount "nan" = true /\
  py_float "-nan" = Some FNan /\ validate_amount "-nan" = true /\
  py_float "1.5e1" = Some (FFin false 15 0) /\ validate_amount "1.5e1" = false.
Proof. vm_compute. repeat split. Qed.

(** On a plain decimal literal (optional sign, digits, optionally '.'
    and digits, at least one digit), [validate_amount] returns true
    exactly when the value is strictly positive and at most two digits
    follow the '.'. *)
Theorem validate_amount_plain_decimal (s : string) :
  parse_plain_decimal (list_ascii_of_string s) <> None ->
  validate_amount s = amount_spec s.
Proof.
  intros H. unfold amount_spec.
  destruct (parse_plain_decimal (list_ascii_of_string s)) as [[[sg d1] od2]|] eqn:Hp;
    [clear H | contradiction].
  apply parse_plain_decimal_inv in Hp as (Hl & Hd1 & Hd2 & Hne).
  unfold validate_amount.
  rewrite (py_float_plain s sg d1 od2 Hd1 Hd2 Hne Hl). cbn [float_le_zero].
  pose proof (lit_dot_check sg d1 od2 Hd1 Hd2 Hne) as Hdot. cbv zeta in Hdot.
  rewrite Hl, Hdot.
  pose proof (digits_value_nonneg _ (Forall_app_2 _ _ _ Hd1 Hd2)) as Hm.
  destruct (is_neg sg); [reflexivity|]. cbn [orb negb andb].
  destruct (length (dict_get od2 []) <=? 2)%nat eqn:Hlen.
  - apply Nat.leb_le in Hlen. rewrite (rounds_to_zero_small _ _ Hm Hlen).
    destruct (0 <? _)%Z; reflexivity.
  - rewrite andb_false_r. destruct (rounds_to_zero _ _); reflexivity.
Qed.

Lemma validate_amount_plain_decimal_witness :
  validate_amount "10.00" = amount_spec "10.00" /\ amount_spec "10.00" = true /\
  validate_amount "10.001" = amount_spec "10.001" /\ amount_spec "10.001" = false /\
  validate_amount "-5" = amount_spec "-5" /\ amount_spec "-5" = false.
Proof.
  split; [apply validate_amount_plain_decimal; vm_compute; discriminate|].
  split; [vm_compute; reflexivity|].
  split; [apply validate_amount_plain_decimal; vm_compute; discriminate|].
  split; [vm_compute; reflexivity|].
  split; [apply validate_amount_plain_decimal; vm_compute; discriminate|].
  vm_compute; reflexivity.
Defined.

(* ================================================================== *)
(** * Further properties of the session store and the handler *)

(** Every store operation on one id leaves the entries of all other ids
    as they were. *)
Theorem store_ops_isolated (st : store) (s s' : string)
    (fields : list (string * pyval)) :
  s <> s' ->
  snd (get_ussd_session st s) !! s' = st !! s' /\
  update_ussd_session st s fields !! s' = st !! s' /\
  clear_ussd_session st s !! s' = st !! s'.
Proof.
  intros Hne. unfold get_ussd_session, update_ussd_session, clear_ussd_session.
  split; [|split]; destruct (st !! s); simpl; try reflexivity.
  - apply lookup_insert_ne. exact Hne.
  - apply lookup_insert_ne. exact Hne.
  - apply lookup_delete_ne. exact Hne.
Qed.

Lemma store_ops_isolated_witness :
  snd (get_ussd_session {["B" := fresh_session]} "A") !! "B" = Some fresh_session /\
  update_ussd_session {["B" := fresh_session]} "A" [("step", VInt 1)] !! "B" =
    Some fresh_session /\
  clear_ussd_session {["B" := fresh_session]} "A" !! "B" = Some fresh_session.
Proof.
  pose proof (store_ops_isolated {["B" := fresh_session]} "A" "B" [("step", VInt 1)]
                ltac:(discriminate)) as (H1 & H2 & H3).
  rewrite lookup_singleton_eq in H1, H2, H3. split; [exact H1|split; [exact H2|exact H3]].
Defined.

(** Two successive updates of one session are one update with the
    concatenated fields. *)
Theorem update_ussd_session_compose (st : store) (s : string)
    (f1 f2 : list (string * pyval)) :
  update_ussd_session (update_ussd_session st s f1) s f2 =
  update_ussd_session st s (f1 ++ f2).
Proof.
  unfold update_ussd_session.
  destruct (st !! s) as [sess|] eqn:H.
  - rewrite lookup_insert_eq, insert_insert_eq, fold_left_app. reflexivity.
  - rewrite H. reflexivity.
Qed.

(** [get_ussd_session] twice is [get_ussd_session] once. *)
Theorem get_ussd_session_idempotent (st : store) (s : string) :
  get_ussd_session (snd (get_ussd_session st s)) s = get_ussd_session st s.
Proof.
  unfold get_ussd_session. destruct (st !! s) as [sess|] eqn:H; simpl.
  - rewrite H. reflexivity.
  - rewrite lookup_insert_eq. reflexivity.
Qed.

(** Handling a request never changes or removes a stored session, also
    when the response is END; the only change it can make is to store a
    fresh session under the event's sessionid when none was there. *)
Theorem handle_store_effect (st st' : store) (ev : event) (r : ussd_response) :
  handle_ussd_request st ev = inl (r, st') ->
  (forall k sess, st !! k = Some sess -> st' !! k = Some sess) /\
  (forall k, st' !! k <> st !! k ->
     k = sessionid_of ev /\ st !! k = None /\ st' !! k = Some fresh_session).
Proof.
  intros H.
  assert (Hst : st' = st \/
                (st !! sessionid_of ev = None /\
                 st' = <[sessionid_of ev := fresh_session]> st)).
  { unfold handle_ussd_request in H.
    destruct (String.eqb (sessionid_of ev) ""); [injection H as _ <-; now left|].
    destruct (negb (msgtype_of ev)); [injection H as _ <-; now left|].
    unfold get_ussd_session in H.
    destruct (st !! sessionid_of ev) as [sess|] eqn:E.
    - left. destruct (String.eqb (msg_of ev) ""); [injection H as _ <-; reflexivity|].
      destruct (py_int (msg_of ev)) as [z|[|]];
        [|injection H as _ <-; reflexivity|discriminate].
      destruct (existsb _ _); [|injection H as _ <-; reflexivity].
      destruct (z =? 1)%Z; [injection H as _ <-; reflexivity|].
      destruct (z =? 4)%Z; injection H as _ <-; reflexivity.
    - right. split; [reflexivity|].
      destruct (String.eqb (msg_of ev) ""); [injection H as _ <-; reflexivity|].
      destruct (py_int (msg_of ev)) as [z|[|]];
        [|injection H as _ <-; reflexivity|discriminate].
      destruct (existsb _ _); [|injection H as _ <-; reflexivity].
      destruct (z =? 1)%Z; [injection H as _ <-; reflexivity|].
      destruct (z =? 4)%Z; injection H as _ <-; reflexivity. }
  destruct Hst as [-> | [Hnone ->]].
  - split; [tauto|]. intros k Hk. congruence.
  - split.
    + intros k sess Hk. rewrite lookup_insert_ne; [exact Hk|]. congruence.
    + intros k Hk. destruct (String.eq_dec (sessionid_of ev) k) as [<-|Hne].
      * rewrite lookup_insert_eq. auto.
      * rewrite lookup_insert_ne in Hk by exact Hne. congruence.
Qed.

Lemma handle_store_effect_witness :
  "A" = sessionid_of (mk_event (Some "A") None (Some "1") (Some true)) /\
  (∅ : store) !! "A" = None /\
  <["A" := fresh_session]> (∅ : store) !! "A" = Some fresh_session.
Proof.
  refine (proj2 (handle_store_effect ∅ (<["A" := fresh_session]> ∅)
                   (mk_event (Some "A") None (Some "1") (Some true))
                   (mk_response "END" "Your balance is GHS 100.00" (Some "A")) _) "A" _).
  - reflexivity.
  - rewrite lookup_insert_eq, lookup_empty. discriminate.
Defined.

(* ================================================================== *)
(** * [validate_phone_number] and [validate_email] *)

(** [str.isdigit] on one character (code points 0..255): the ASCII
    digits and the superscripts U+00B2, U+00B3, U+00B9. *)
Definition py_isdigit (c : ascii) : bool :=
  is_digit c || match code c with 178 | 179 | 185 => true | _ => false end%nat.

(** [str.isspace] on one character (code points 0..255). *)
Definition str_isspace (c : ascii) : bool :=
  match code c with
  | 9 | 10 | 11 | 12 | 13 | 28 | 29 | 30 | 31 | 32 | 133 | 160 => true
  | _ => false
  end%nat.

Fixpoint starts_with (prefix l : list ascii) : bool :=
  match prefix, l with
  | [], _ => true
  | p :: ps, c :: cs => Ascii.eqb p c && starts_with ps cs
  | _ :: _, [] => false
  end.

Definition validate_phone_number (phone_number : string) : bool :=
  if String.eqb phone_number "" then false
  else
    let digits := List.filter py_isdigit (list_ascii_of_string phone_number) in
    if (length digits =? 10)%nat then starts_with ["0"%char] digits
    else if (length digits =? 12)%nat then starts_with ["2"%char; "3"%char; "3"%char] digits
    else false.

(** [str.strip()] with no argument. *)
Fixpoint lstrip_ws (l : list ascii) : list ascii :=
  match l with
  | c :: r => if str_isspace c then lstrip_ws r else l
  | [] => []
  end.

Definition str_strip (l : list ascii) : list ascii := rev (lstrip_ws (rev (lstrip_ws l))).

Definition has_char (c : ascii) (l : list ascii) : bool := existsb (Ascii.eqb c) l.

Definition validate_email (email : string) : bool :=
  let e := list_ascii_of_string email in
  if String.eqb email "" || negb (has_char "@" e) then false
  else if has_char " " e || (match str_strip e with [] => true | _ => false end) then false
  else
    match py_split "@"%char e with
    | [local; domain] =>
        if (match str_strip local with [] => true | _ => false end) ||
           (match str_strip domain with [] => true | _ => false end)
        then false
        else has_char "." domain
    | _ => false
    end.

Lemma list_ascii_of_string_append (s1 s2 : string) :
  list_ascii_of_string (s1 ++ s2)%string = list_ascii_of_string s1 ++ list_ascii_of_string s2.
Proof. induction s1 as [|c s1 IH]; simpl; [reflexivity|]. rewrite IH. reflexivity. Qed.

Lemma filter_filter_same {A} (f : A -> bool) (l : list A) :
  List.filter f (List.filter f l) = List.filter f l.
Proof.
  induction l as [|x l IH]; simpl; [reflexivity|].
  destruct (f x) eqn:E; simpl; [rewrite E, IH|]; auto.
Qed.

(** The verdict on a phone number depends only on its digit characters:
    separators such as blanks, dashes, brackets or a leading '+' make no
    difference, and only 10 or 12 digits can be accepted. *)
Theorem validate_phone_number_digits_only (p : string) :
  validate_phone_number p =
    validate_phone_number (string_of_list_ascii (List.filter py_isdigit (list_ascii_of_string p))) /\
  (validate_phone_number p = true ->
     length (List.filter py_isdigit (list_ascii_of_string p)) = 10%nat \/
     length (List.filter py_isdigit (list_ascii_of_string p)) = 12%nat).
Proof.
  split.
  - unfold validate_phone_number at 2. rewrite list_ascii_of_string_of_list_ascii.
    rewrite filter_filter_same.
    unfold validate_phone_number.
    destruct (String.eqb_spec p "") as [->|Hp]; simpl.
    + reflexivity.
    + destruct (List.filter py_isdigit (list_ascii_of_string p)) eqn:E; reflexivity.
  - unfold validate_phone_number. destruct (String.eqb p ""); [discriminate|].
    destruct (length _ =? 10)%nat eqn:E10; [left; apply Nat.eqb_eq; exact E10|].
    destruct (length _ =? 12)%nat eqn:E12; [right; apply Nat.eqb_eq; exact E12|].
    discriminate.
Qed.

(** A number written locally as ["0" + rest], or internationally as
    ["233" + rest] or ["+233" + rest], is accepted exactly when [rest]
    holds 9 digit characters: the three forms get the same verdict. *)
Theorem validate_phone_number_local_international (rest : string) :
  let n := length (List.filter py_isdigit (list_ascii_of_string rest)) in
  validate_phone_number ("0" ++ rest) = (n =? 9)%nat /\
  validate_phone_number ("233" ++ rest) = (n =? 9)%nat /\
  validate_phone_number ("+233" ++ rest) = (n =? 9)%nat.
Proof.
  intros n. unfold validate_phone_number.
  rewrite !list_ascii_of_string_append. simpl. fold n.
  split; [|split]; destruct (Nat.eqb_spec n 9) as [->|Hn]; try reflexivity;
    repeat match goal with |- context [(?a =? ?b)%nat] => destruct (Nat.eqb_spec a b) end;
    first [reflexivity | lia].
Qed.

Lemma lstrip_ws_blank (l : list ascii) :
  (match lstrip_ws l with [] => true | _ => false end) = forallb str_isspace l.
Proof.
  induction l as [|c l IH]; simpl; [reflexivity|].
  destruct (str_isspace c); simpl; [exact IH|reflexivity].
Qed.

Lemma forallb_lstrip_ws (l : list ascii) :
  forallb str_isspace (lstrip_ws l) = forallb str_isspace l.
Proof.
  induction l as [|c l IH]; simpl; [reflexivity|].
  destruct (str_isspace c) eqn:E; simpl; [exact IH|rewrite E; reflexivity].
Qed.

Lemma forallb_rev_same {A} (f : A -> bool) (l : list A) :
  forallb f (rev l) = forallb f l.
Proof.
  induction l as [|x l IH]; simpl; [reflexivity|].
  rewrite forallb_app, IH. simpl. rewrite andb_true_r, andb_comm. reflexivity.
Qed.

(** [not x.strip()] is "x consists of whitespace only". *)
Lemma str_strip_blank (l : list ascii) :
  (match str_strip l with [] => true | _ => false end) = forallb str_isspace l.
Proof.
  unfold str_strip.
  transitivity (match lstrip_ws (rev (lstrip_ws l)) with [] => true | _ => false end).
  - destruct (lstrip_ws (rev (lstrip_ws l))) as [|c t]; simpl; [reflexivity|].
    destruct (rev t ++ [c]) eqn:E; [|reflexivity].
    apply (f_equal (@length ascii)) in E. rewrite length_app in E. simpl in E. lia.
  - rewrite lstrip_ws_blank, forallb_rev_same, forallb_lstrip_ws. reflexivity.
Qed.

Lemma py_split_nonnil (sep : ascii) (l : list ascii) : py_split sep l <> [].
Proof.
  destruct l as [|c l]; simpl; [discriminate|].
  destruct (Ascii.eqb c sep); [discriminate|]. destruct (py_split sep l); discriminate.
Qed.

Lemma py_split_cons_inv (sep : ascii) (l p : list ascii) (ps : list (list ascii)) :
  py_split sep l = p :: ps ->
  Forall (fun c => Ascii.eqb c sep = false) p /\
  ((ps = [] /\ l = p) \/ (exists rest, l = p ++ sep :: rest /\ py_split sep rest = ps)).
Proof.
  revert p ps. induction l as [|c l IH]; intros p ps H; simpl in H.
  - injection H as <- <-. split; [constructor|left; split; reflexivity].
  - destruct (Ascii.eqb c sep) eqn:Ec.
    + injection H as <- <-. split; [constructor|].
      right. exists l. apply Ascii.eqb_eq in Ec. subst c. split; reflexivity.
    + destruct (py_split sep l) as [|q qs] eqn:Hl; [now apply py_split_nonnil in Hl|].
      injection H as <- <-. destruct (IH q qs eq_refl) as [Hq [[-> ->] | (rest & -> & Hr)]].
      * split; [constructor; assumption|left; split; reflexivity].
      * split; [constructor; assumption|]. right. exists rest. split; [reflexivity|exact Hr].
Qed.

Lemma py_split_two (sep : ascii) (l a b : list ascii) :
  py_split sep l = [a; b] <->
  l = a ++ sep :: b /\ Forall (fun c => Ascii.eqb c sep = false) a /\
  Forall (fun c => Ascii.eqb c sep = false) b.
Proof.
  split.
  - intros H. destruct (py_split_cons_inv _ _ _ _ H) as [Ha [[? _] | (rest & -> & Hr)]];
      [discriminate|].
    destruct (py_split_cons_inv _ _ _ _ Hr) as [Hb [[_ ->] | (rest' & _ & Hr')]].
    + split; [reflexivity|split; assumption].
    + exfalso. exact (py_split_nonnil _ _ Hr').
  - intros (-> & Ha & Hb). rewrite py_split_app by exact Ha.
    rewrite py_split_nosep by exact Hb. reflexivity.
Qed.

Lemma has_char_false (c : ascii) (l : list ascii) :
  has_char c l = false <-> Forall (fun x => Ascii.eqb x c = false) l.
Proof.
  unfold has_char. induction l as [|x l IH]; simpl; [split; [constructor|reflexivity]|].
  rewrite orb_false_iff, IH. rewrite (Ascii.eqb_sym c x).
  split; [intros [H1 H2]; constructor; assumption|intros H; inversion H; split; assumption].
Qed.

(** [validate_email] accepts exactly the strings [local + "@" + domain]
    with no other '@' and no blank (U+0020) anywhere, where local and
    domain each contain a non-whitespace character and domain contains a
    '.'. *)
Theorem validate_email_iff (email : string) :
  validate_email email = true <->
  exists local domain,
    list_ascii_of_string email = local ++ "@"%char :: domain /\
    has_char "@" local = false /\ has_char "@" domain = false /\
    has_char " " local = false /\ has_char " " domain = false /\
    forallb str_isspace local = false /\ forallb str_isspace domain = false /\
    has_char "." domain = true.
Proof.
  unfold validate_email. rewrite !str_strip_blank.
  set (e := list_ascii_of_string email).
  split.
  - destruct (String.eqb email "" || negb (has_char "@" e)); [discriminate|].
    destruct (has_char " " e) eqn:Hsp; [discriminate|].
    destruct (forallb str_isspace e); [discriminate|]. simpl.
    destruct (py_split "@"%char e) as [|a [|b [|]]] eqn:Hs; try discriminate.
    apply py_split_two in Hs as (He & Ha & Hb). rewrite !str_strip_blank.
    destruct (forallb str_isspace a) eqn:Hwa; [simpl; discriminate|].
    destruct (forallb str_isspace b) eqn:Hwb; [simpl; discriminate|]. simpl. intros Hdot.
    rewrite He in Hsp. unfold has_char in Hsp.
    rewrite existsb_app in Hsp. simpl in Hsp. apply orb_false_iff in Hsp as [Hsa Hsb].
    exists a, b. repeat split; try assumption; apply has_char_false; assumption.
  - intros (a & b & He & Ha & Hb & Hsa & Hsb & Hwa & Hwb & Hdot).
    assert (Hne : String.eqb email "" = false).
    { apply String.eqb_neq. intros ->. unfold e in He. simpl in He. destruct a; discriminate He. }
    rewrite Hne. fold e. rewrite He.
    unfold has_char at 1 2. rewrite !existsb_app. simpl. rewrite orb_true_r. simpl.
    change (existsb (Ascii.eqb " ") a) with (has_char " " a).
    change (existsb (Ascii.eqb " ") b) with (has_char " " b).
    rewrite Hsa, Hsb, forallb_app, Hwa. simpl.
    replace (py_split "@"%char (a ++ "@"%char :: b)) with [a; b]
      by (symmetry; apply py_split_two; split; [reflexivity|split; apply has_char_false; assumption]).
    rewrite !str_strip_blank, Hwa, Hwb. exact Hdot.
Qed.

(* ================================================================== *)
(** * [send_sms] up to the HTTP call *)

(** Python values put into request payloads. *)
Inductive pval :=
| PStr (s : string)
| PNone
| PDict (kvs : list (string * string)).

(** [str(v)] for the scalar payload values. *)
Definition pval_str (v : pval) : string :=
  match v with PStr s => s | PNone => "None" | PDict _ => "" end.

(** Truthiness of an optional string attribute. *)
Definition truthy (o : option string) : bool :=
  match o with Some s => negb (String.eqb s "") | None => false end.

Definition opt_pval (o : option string) : pval :=
  match o with Some s => PStr s | None => PNone end.

(** [a or b] on two optional strings. *)
Definition py_or (a b : option string) : option string := if truthy a then a else b.

(** The attributes of [NaloSolutions] the SMS and e-mail code reads. *)
Record nalo_client := mk_client {
  sms_username : option string;
  sms_password : option string;
  sms_auth_key : option string;
  sms_sender_id : option string;
  email_username : option string;
  email_password : option string;
  email_auth_key : option string;
  email_from_email : option string;
  email_from_name : option string
}.

Definition sms_base_url : string := "https://api.nalosolutions.com/sms".
Definition email_base_url : string := "https://api.nalosolutions.com/sendemail".

(** The arguments of one [_make_request] call; an omitted [files] or
    [headers] argument is the empty list, as requests treats it. *)
Inductive http_body :=
| NoBody
| FormBody (data : list (string * pval)) (files : list (string * string))
           (headers : list (string * string))
| JsonBody (json : list (string * pval)).

Record request := mk_request {
  req_method : string;
  req_url : string;
  req_body : http_body
}.

(** Exceptions raised before any request is made. *)
Inductive py_error :=
| PValueError (msg : string)
| PKeyError (key : string)
| POSError (path : string)
| PAttributeError (attr : string).

(** [quote_plus]: UTF-8 bytes; letters, digits and "_.-~" kept, blank
    as '+', every other byte as %XX (upper-case hex). *)
Definition utf8_bytes (c : ascii) : list nat :=
  if (code c <? 128)%nat then [code c] else [192 + code c / 64; 128 + code c mod 64]%nat.

Definition always_safe (b : nat) : bool :=
  (((65 <=? b) && (b <=? 90)) || ((97 <=? b) && (b <=? 122)) ||
   ((48 <=? b) && (b <=? 57)) || (b =? 95) || (b =? 46) || (b =? 45) || (b =? 126))%nat.

Definition hex_digit (n : nat) : ascii :=
  if (n <? 10)%nat then ascii_of_nat (48 + n) else ascii_of_nat (55 + n).

Definition quote_byte (b : nat) : list ascii :=
  if (b =? 32)%nat then ["+"%char]
  else if always_safe b then [ascii_of_nat b]
  else ["%"%char; hex_digit (b / 16); hex_digit (b mod 16)].

Definition quote_plus (s : string) : list ascii :=
  flat_map quote_byte (flat_map utf8_bytes (list_ascii_of_string s)).

(** [sep.join(pieces)]. *)
Fixpoint py_join (sep : ascii) (pieces : list (list ascii)) : list ascii :=
  match pieces with
  | [] => []
  | [p] => p
  | p :: ps => p ++ sep :: py_join sep ps
  end.

(** [urlencode(data)] for a dict of scalar values. *)
Definition urlencode_pieces (data : list (string * pval)) : list (list ascii) :=
  map (fun kv => quote_plus (fst kv) ++ "="%char :: quote_plus (pval_str (snd kv))) data.

Definition urlencode (data : list (string * pval)) : string :=
  string_of_list_ascii (py_join "&"%char (urlencode_pieces data)).

(** The [sms_data] dict, in insertion order. *)
Definition sms_data (c : nalo_client) (phone_number message : string)
    (sender_id : option string) : list (string * pval) :=
  [("phone", PStr phone_number); ("msg", PStr message);
   ("sendid", opt_pval (py_or sender_id (sms_sender_id c)))] ++
  (if truthy (sms_auth_key c) then [("authkey", opt_pval (sms_auth_key c))]
   else [("userid", opt_pval (sms_username c)); ("password", opt_pval (sms_password c))]).

(** [send_sms] up to its [_make_request] call: the request it makes,
    or the exception it raises first. *)
Definition sms_request (c : nalo_client) (phone_number message method : string)
    (sender_id : option string) : request + py_error :=
  if String.eqb phone_number "" then inr (PValueError "Phone number must be provided")
  else if String.eqb message "" then inr (PValueError "Message must be provided")
  else if negb (String.eqb method "GET" || String.eqb method "POST") then
    inr (PValueError "Method must be 'GET' or 'POST'")
  else if (1000 <? String.length message)%nat then inr (PValueError "Message is too long")
  else if negb ((truthy (sms_username c) && truthy (sms_password c)) || truthy (sms_auth_key c))
  then inr (PValueError "Authentication credentials must be provided")
  else
    let data := sms_data c phone_number message sender_id in
    if String.eqb method "GET" then
      inl (mk_request "GET" (sms_base_url ++ "/?" ++ urlencode data)%string NoBody)
    else inl (mk_request "POST" (sms_base_url ++ "/")%string (FormBody data [] [])).

(** ** Properties of [send_sms] *)

Definition url_safe (c : ascii) : bool :=
  negb (Ascii.eqb c "&"%char) && negb (Ascii.eqb c "="%char).

Lemma all_ascii (P : ascii -> bool) :
  forallb (fun n => P (ascii_of_nat n)) (seq 0 256) = true -> forall c, P c = true.
Proof.
  intros H c. rewrite <- (ascii_nat_embedding c).
  apply (proj1 (List.forallb_forall _ _)) with (x := nat_of_ascii c) in H; [exact H|].
  apply in_seq. pose proof (nat_ascii_bounded c). lia.
Qed.

Lemma quote_char_safe (c : ascii) :
  forallb url_safe (flat_map quote_byte (utf8_bytes c)) = true.
Proof.
  revert c. apply (all_ascii (fun c => forallb url_safe (flat_map quote_byte (utf8_bytes c)))).
  vm_compute. reflexivity.
Qed.

Lemma quote_plus_safe (s : string) : forallb url_safe (quote_plus s) = true.
Proof.
  unfold quote_plus. induction (list_ascii_of_string s) as [|c l IH]; [reflexivity|].
  cbn [flat_map]. rewrite flat_map_app, forallb_app, quote_char_safe, IH. reflexivity.
Qed.

Lemma url_safe_Forall (l : list ascii) :
  forallb url_safe l = true ->
  Forall (fun c => Ascii.eqb c "&"%char = false) l /\
  Forall (fun c => Ascii.eqb c "="%char = false) l.
Proof.
  induction l as [|c l IH]; simpl; [split; constructor|].
  unfold url_safe at 1. rewrite !andb_true_iff, !negb_true_iff.
  intros [[H1 H2] H3]. destruct (IH H3). split; constructor; assumption.
Qed.

Lemma py_split_join (sep : ascii) (pieces : list (list ascii)) :
  pieces <> [] ->
  Forall (Forall (fun c => Ascii.eqb c sep = false)) pieces ->
  py_split sep (py_join sep pieces) = pieces.
Proof.
  intros Hne H. induction H as [|p ps Hp Hps IH]; [congruence|].
  destruct ps as [|q qs].
  - simpl. apply py_split_nosep, Hp.
  - change (py_join sep (p :: q :: qs)) with (p ++ sep :: py_join sep (q :: qs)).
    rewrite py_split_app by exact Hp. rewrite IH by discriminate. reflexivity.
Qed.

Lemma urlencode_piece_split (kv : string * pval) :
  py_split "="%char (quote_plus (fst kv) ++ "="%char :: quote_plus (pval_str (snd kv))) =
  [quote_plus (fst kv); quote_plus (pval_str (snd kv))] /\
  Forall (fun c => Ascii.eqb c "&"%char = false)
    (quote_plus (fst kv) ++ "="%char :: quote_plus (pval_str (snd kv))).
Proof.
  destruct (url_safe_Forall _ (quote_plus_safe (fst kv))) as [Ak Ek].
  destruct (url_safe_Forall _ (quote_plus_safe (pval_str (snd kv)))) as [Av Ev].
  split.
  - apply py_split_two. split; [reflexivity|split; assumption].
  - apply Forall_app. split; [exact Ak|]. constructor; [reflexivity|exact Av].
Qed.

(** The query string [urlencode] builds splits back, at '&' and then
    at '=', into the quoted keys and values of the dict. *)
Lemma urlencode_split (data : list (string * pval)) :
  data <> [] ->
  map (py_split "="%char) (py_split "&"%char (list_ascii_of_string (urlencode data))) =
  map (fun kv => [quote_plus (fst kv); quote_plus (pval_str (snd kv))]) data.
Proof.
  intros Hne. unfold urlencode. rewrite list_ascii_of_string_of_list_ascii.
  rewrite py_split_join.
  - unfold urlencode_pieces. rewrite map_map. apply map_ext. intros kv.
    apply (proj1 (urlencode_piece_split kv)).
  - unfold urlencode_pieces. destruct data; [congruence|discriminate].
  - unfold urlencode_pieces. apply List.Forall_forall. intros p Hp.
    apply in_map_iff in Hp. destruct Hp as [kv [<- _]].
    apply (proj2 (urlencode_piece_split kv)).
Qed.

(** [send_sms] reaches its HTTP call exactly when the phone number and
    the message are non-empty, the method is GET or POST, the message has
    at most 1000 characters and credentials are configured. *)
Theorem send_sms_accepts (c : nalo_client) (phone_number message method : string)
    (sender_id : option string) :
  (exists req, sms_request c phone_number message method sender_id = inl req) <->
  phone_number <> "" /\ message <> "" /\ (method = "GET" \/ method = "POST") /\
  (String.length message <= 1000)%nat /\
  (truthy (sms_username c) && truthy (sms_password c) || truthy (sms_auth_key c)) = true.
Proof.
  unfold sms_request. split.
  - intros [req H].
    destruct (String.eqb phone_number "") eqn:E1; [discriminate|].
    destruct (String.eqb message "") eqn:E2; [discriminate|].
    destruct (String.eqb method "GET" || String.eqb method "POST") eqn:E3;
      [|simpl in H; discriminate].
    destruct (1000 <? String.length message)%nat eqn:E4; [simpl in H; discriminate|].
    destruct (truthy (sms_username c) && truthy (sms_password c) || truthy (sms_auth_key c))
      eqn:E5; [|simpl in H; discriminate].
    apply String.eqb_neq in E1, E2. apply Nat.ltb_ge in E4. apply orb_true_iff in E3.
    destruct E3 as [E3|E3]; apply String.eqb_eq in E3; repeat split; auto.
  - intros (H1 & H2 & H3 & H4 & H5).
    apply String.eqb_neq in H1, H2. rewrite H1, H2, H5.
    assert (Hm : (String.eqb method "GET" || String.eqb method "POST") = true)
      by (destruct H3 as [->| ->]; reflexivity).
    rewrite Hm. apply Nat.ltb_ge in H4. rewrite H4. simpl.
    destruct (String.eqb method "GET"); eexists; reflexivity.
Qed.

(** The length check comes before the credentials check: a message of
    more than 1000 characters is refused as too long, with or without
    credentials, once the earlier checks pass. *)
Theorem send_sms_too_long (c : nalo_client) (phone_number message method : string)
    (sender_id : option string) :
  sms_request c phone_number message method sender_id = inr (PValueError "Message is too long") <->
  phone_number <> "" /\ message <> "" /\ (method = "GET" \/ method = "POST") /\
  (1000 < String.length message)%nat.
Proof.
  unfold sms_request. split.
  - intros H.
    destruct (String.eqb phone_number "") eqn:E1; [discriminate|].
    destruct (String.eqb message "") eqn:E2; [discriminate|].
    destruct (String.eqb method "GET" || String.eqb method "POST") eqn:E3;
      [|simpl in H; discriminate].
    destruct (1000 <? String.length message)%nat eqn:E4.
    2:{ simpl in H. destruct (negb _); [discriminate|].
        destruct (String.eqb method "GET"); discriminate. }
    apply String.eqb_neq in E1, E2. apply Nat.ltb_lt in E4. apply orb_true_iff in E3.
    destruct E3 as [E3|E3]; apply String.eqb_eq in E3; repeat split; auto.
  - intros (H1 & H2 & H3 & H4).
    apply String.eqb_neq in H1, H2. rewrite H1, H2.
    assert (Hm : (String.eqb method "GET" || String.eqb method "POST") = true)
      by (destruct H3 as [->| ->]; reflexivity).
    rewrite Hm. apply Nat.ltb_lt in H4. rewrite H4. reflexivity.
Qed.

Lemma send_sms_too_long_witness :
  sms_request (mk_client None None None None None None None None None) "0241234567"
    (string_of_list_ascii (repeat "a"%char 1001)) "GET" None =
  inr (PValueError "Message is too long").
Proof.
  apply send_sms_too_long. split; [discriminate|]. split; [vm_compute; discriminate|].
  split; [left; reflexivity|]. vm_compute. lia.
Defined.

(** With [method="GET"] the request is a GET on [sms_base_url/?query]
    whose query splits, at '&' and then at '=', into exactly the quoted
    keys and values of [sms_data]: no phone number, message or sender id
    can add, drop or split a parameter. *)
Theorem send_sms_get_query (c : nalo_client) (phone_number message : string)
    (sender_id : option string) (req : request) :
  sms_request c phone_number message "GET" sender_id = inl req ->
  exists q,
    req = mk_request "GET" (sms_base_url ++ "/?" ++ q)%string NoBody /\
    map (py_split "="%char) (py_split "&"%char (list_ascii_of_string q)) =
    map (fun kv => [quote_plus (fst kv); quote_plus (pval_str (snd kv))])
      (sms_data c phone_number message sender_id).
Proof.
  unfold sms_request. intros H.
  destruct (String.eqb phone_number "") eqn:E1; [discriminate|].
  destruct (String.eqb message "") eqn:E2; [discriminate|].
  destruct (1000 <? String.length message)%nat eqn:E4; [discriminate|].
  destruct (truthy (sms_username c) && truthy (sms_password c) || truthy (sms_auth_key c));
    [|discriminate].
  simpl in H. injection H as <-. eexists. split; [reflexivity|].
  apply urlencode_split. unfold sms_data. discriminate.
Qed.

Lemma send_sms_get_query_witness :
  exists q,
    mk_request "GET" (sms_base_url ++ "/?" ++ q)%string NoBody =
    mk_request "GET" (sms_base_url ++ "/?" ++ q)%string NoBody /\
    map (py_split "="%char) (py_split "&"%char (list_ascii_of_string q)) =
    map (fun kv => [quote_plus (fst kv); quote_plus (pval_str (snd kv))])
      (sms_data (mk_client None None (Some "k") None None None None None None)
         "0241234567" "a=1&b=2" None).
Proof.
  destruct (send_sms_get_query (mk_client None None (Some "k") None None None None None None)
              "0241234567" "a=1&b=2" None
              (mk_request "GET" (sms_base_url ++ "/?" ++
                 urlencode (sms_data (mk_client None None (Some "k") None None None None None None)
                   "0241234567" "a=1&b=2" None))%string NoBody) eq_refl) as [q [_ Hq]].
  exists q. split; [reflexivity|exact Hq].
Defined.

(* ================================================================== *)
(** * [str] and [int] on menu numbers *)

Lemma digit_char (n : nat) :
  (n < 10)%nat ->
  is_digit (ascii_of_nat (48 + n)) = true /\ digit_val (ascii_of_nat (48 + n)) = Z.of_nat n.
Proof.
  intros Hn. unfold is_digit, digit_val, code.
  rewrite nat_ascii_embedding by lia. split.
  - apply andb_true_iff. split; apply Nat.leb_le; lia.
  - lia.
Qed.

Lemma digits_value_snoc (l : list ascii) (c : ascii) :
  digits_value (l ++ [c]) = (digits_value l * 10 + digit_val c)%Z.
Proof. unfold digits_value. rewrite fold_left_app. reflexivity. Qed.

Lemma nat_to_digits_spec (fuel n : nat) :
  (n < fuel)%nat ->
  let l := list_ascii_of_string (nat_to_digits fuel n) in
  l <> [] /\ Forall (fun c => is_digit c = true) l /\ digits_value l = Z.of_nat n.
Proof.
  revert n. induction fuel as [|f IH]; intros n Hn; [lia|]. cbv zeta.
  cbn [nat_to_digits]. destruct (n <? 10)%nat eqn:E.
  - apply Nat.ltb_lt in E. destruct (digit_char n E) as [D V].
    cbn [list_ascii_of_string]. split; [discriminate|].
    split; [constructor; [exact D|constructor]|].
    unfold digits_value. cbn [fold_left]. rewrite V. lia.
  - apply Nat.ltb_ge in E.
    assert (Hq : (n / 10 < f)%nat) by (apply Nat.lt_le_trans with n; [apply Nat.div_lt; lia|lia]).
    destruct (IH (n / 10) Hq) as (Hne & Hd & Hv).
    assert (Hm : (n mod 10 < 10)%nat) by (apply Nat.mod_upper_bound; lia).
    destruct (digit_char (n mod 10) Hm) as [D V].
    rewrite list_ascii_of_string_append.
    change (list_ascii_of_string (String (ascii_of_nat (48 + n mod 10)) ""))
      with [ascii_of_nat (48 + n mod 10)].
    split; [destruct (list_ascii_of_string (nat_to_digits f (n / 10))); [congruence|discriminate]|].
    split; [apply Forall_app; split; [exact Hd|constructor; [exact D|constructor]]|].
    rewrite digits_value_snoc, Hv, V.
    rewrite (Nat.div_mod_eq n 10) at 3. lia.
Qed.

Lemma digit_not_space (c : ascii) : is_digit c = true -> py_space c = false.
Proof.
  pose proof (all_ascii (fun c => implb (is_digit c) (negb (py_space c)))
                ltac:(vm_compute; reflexivity) c) as H.
  intros D. cbv beta in H. rewrite D in H. simpl in H. apply negb_true_iff, H.
Qed.

Lemma lstrip_digits (l : list ascii) : Forall (fun c => is_digit c = true) l -> lstrip l = l.
Proof. intros H. destruct H as [|c l Hc _]; simpl; [reflexivity|]. rewrite digit_not_space; auto. Qed.

Lemma us_digits_plain (l : list ascii) :
  l <> [] -> Forall (fun c => is_digit c = true) l -> us_digits l = Some l.
Proof.
  intros Hne H. induction H as [|c l Hc Hl IH]; [congruence|].
  simpl. rewrite Hc. destruct l as [|u r]; [reflexivity|].
  inversion Hl as [|? ? Hu _]; subst.
  assert (Ascii.eqb u "_"%char = false) as ->.
  { apply Ascii.eqb_neq. intros ->. discriminate Hu. }
  rewrite IH by discriminate. reflexivity.
Qed.

Lemma string_length_list (s : string) : String.length s = length (list_ascii_of_string s).
Proof. induction s as [|c s IH]; simpl; [reflexivity|]. rewrite IH. reflexivity. Qed.

(** [int(str(n))] gives back [n]: the number a menu shows for an option
    parses, through [int()], to that option's number, as long as it has
    at most [sys.get_int_max_str_digits()] digits. *)
Theorem py_int_py_str_nat (n : nat) :
  (String.length (py_str_nat n) <= int_max_str_digits)%nat ->
  py_int (py_str_nat n) = inl (Z.of_nat n).
Proof.
  intros Hlen. rewrite string_length_list in Hlen.
  destruct (nat_to_digits_spec (S n) n (Nat.lt_succ_diag_r n)) as (Hne & Hd & Hv).
  unfold py_str_nat in *. unfold py_int.
  set (l := list_ascii_of_string (nat_to_digits (S n) n)) in *.
  assert (Ht : py_transform l = Some l).
  { unfold py_transform. replace (forallb _ l) with true; [reflexivity|].
    symmetry. apply List.forallb_forall. intros c Hc.
    apply (proj1 (List.Forall_forall _ _) Hd) in Hc.
    unfold is_digit in Hc. apply andb_true_iff in Hc as [_ Hc]. apply Nat.leb_le in Hc.
    apply orb_true_iff. left. apply Nat.ltb_lt. lia. }
  rewrite Ht. unfold py_strip. rewrite (lstrip_digits l Hd).
  rewrite (lstrip_digits (rev l)) by (apply Forall_rev; exact Hd). rewrite rev_involutive.
  destruct l as [|c r] eqn:El; [congruence|].
  inversion Hd as [|? ? Hc _]; subst.
  assert (take_sign (c :: r) = (NoSign, c :: r)) as ->.
  { simpl. destruct (Ascii.eqb c "+"%char) eqn:P.
    - apply Ascii.eqb_eq in P. subst. discriminate Hc.
    - destruct (Ascii.eqb c "-"%char) eqn:M; [apply Ascii.eqb_eq in M; subst; discriminate Hc|].
      reflexivity. }
  rewrite <- El in *. rewrite us_digits_plain by assumption.
  apply Nat.ltb_ge in Hlen. rewrite Hlen. simpl. rewrite Hv. reflexivity.
Qed.

Lemma py_int_py_str_nat_witness :
  py_int (py_str_nat 42) = inl 42%Z.
Proof. apply (py_int_py_str_nat 42). vm_compute. lia. Defined.

(* ================================================================== *)
(** * [send_email], [send_html_email], [send_bulk_email] and
      [send_email_with_template] up to their HTTP calls *)

(** What [open(path, "rb")] followed by [f.read()] gives: the bytes, a
    [FileNotFoundError], or another [OSError]. *)
Inductive file_result :=
| FileBytes (contents : string)
| FileMissing
| FileError.

Definition email_data (c : nalo_client) (to_email subject message : string)
    (custom_headers : option (list (string * string))) : list (string * pval) :=
  [("to", PStr to_email); ("subject", PStr subject); ("message", PStr message)] ++
  (if truthy (email_auth_key c) then [("authkey", opt_pval (email_auth_key c))]
   else [("username", opt_pval (email_username c)); ("password", opt_pval (email_password c))]) ++
  (if truthy (email_from_email c) then [("from", opt_pval (email_from_email c))] else []) ++
  (if truthy (email_from_name c) then [("from_name", opt_pval (email_from_name c))] else []) ++
  (match custom_headers with
   | Some ((_ :: _) as h) => [("custom_headers", PDict h)]
   | _ => []
   end).

(** The [for i, attachment_path in enumerate(attachments)] loop. *)
Fixpoint read_attachments (fs : string -> file_result) (i : nat) (paths : list string)
    : list (string * string) + py_error :=
  match paths with
  | [] => inl []
  | p :: ps =>
      match fs p with
      | FileBytes d =>
          match read_attachments fs (S i) ps with
          | inl files => inl ((("attachment_" ++ py_str_nat i)%string, d) :: files)
          | inr e => inr e
          end
      | FileMissing => read_attachments fs (S i) ps
      | FileError => inr (POSError p)
      end
  end.

Definition email_request (c : nalo_client) (fs : string -> file_result)
    (to_email subject message send_format : string)
    (attachments : option (list string))
    (custom_headers : option (list (string * string))) : request + py_error :=
  if String.eqb to_email "" then inr (PValueError "To email must be provided")
  else if String.eqb subject "" then inr (PValueError "Subject must be provided")
  else if String.eqb message "" then inr (PValueError "Message must be provided")
  else if negb (validate_email to_email) then inr (PValueError "Invalid email address format")
  else if negb ((truthy (email_username c) && truthy (email_password c)) || truthy (email_auth_key c))
  then inr (PValueError "Authentication credentials must be provided")
  else
    let data := email_data c to_email subject message custom_headers in
    if String.eqb send_format "json" then
      inl (mk_request "POST" (email_base_url ++ "/")%string (JsonBody data))
    else
      match match attachments with
            | Some ((_ :: _) as ps) => read_attachments fs 0 ps
            | _ => inl []
            end with
      | inl files =>
          inl (mk_request "POST" (email_base_url ++ "/")%string
                 (FormBody data files [("Content-Type", "multipart/form-data")]))
      | inr e => inr e
      end.

Definition html_email_request (c : nalo_client) (to_email subject html_content : string)
    : request :=
  mk_request "POST" (email_base_url ++ "/")%string
    (JsonBody ([("to", PStr to_email); ("subject", PStr subject);
                ("message", PStr html_content); ("content_type", PStr "html")] ++
               (if truthy (email_auth_key c) then [("authkey", opt_pval (email_auth_key c))]
                else [("username", opt_pval (email_username c));
                      ("password", opt_pval (email_password c))]))).

(** The [files] dict of the form branch, written with [enumerate]: the
    contents of every path that opens, under the key of its position in
    [attachments]. *)
Definition attachment_entry (fs : string -> file_result) (ip : nat * string)
    : list (string * string) :=
  match fs (snd ip) with
  | FileBytes d => [(("attachment_" ++ py_str_nat (fst ip))%string, d)]
  | _ => []
  end.

Definition attachment_files (fs : string -> file_result) (paths : list string)
    : list (string * string) :=
  flat_map (attachment_entry fs) (combine (seq 0 (length paths)) paths).

(** ** Properties of the e-mail senders *)

Lemma py_str_nat_inj (i j : nat) : py_str_nat i = py_str_nat j -> i = j.
Proof.
  intros H. unfold py_str_nat in H.
  destruct (nat_to_digits_spec (S i) i (Nat.lt_succ_diag_r i)) as (_ & _ & Hi).
  destruct (nat_to_digits_spec (S j) j (Nat.lt_succ_diag_r j)) as (_ & _ & Hj).
  cbv zeta in Hi, Hj. rewrite H in Hi. rewrite Hi in Hj. lia.
Qed.

Lemma attachment_key_inj (i j : nat) :
  ("attachment_" ++ py_str_nat i)%string = ("attachment_" ++ py_str_nat j)%string -> i = j.
Proof.
  intros H. apply py_str_nat_inj.
  apply (f_equal list_ascii_of_string) in H. rewrite !list_ascii_of_string_append in H.
  apply app_inv_head in H.
  rewrite <- (string_of_list_ascii_of_string (py_str_nat i)), H.
  apply string_of_list_ascii_of_string.
Qed.

Lemma read_attachments_inl (fs : string -> file_result) (i : nat) (paths : list string)
    (files : list (string * string)) :
  read_attachments fs i paths = inl files ->
  Forall (fun p => fs p <> FileError) paths /\
  files = flat_map (attachment_entry fs) (combine (seq i (length paths)) paths).
Proof.
  revert i files. induction paths as [|p ps IH]; intros i files H; simpl in H.
  - injection H as <-. split; [constructor|reflexivity].
  - simpl. unfold attachment_entry at 1. simpl.
    destruct (fs p) as [d| |] eqn:F.
    + destruct (read_attachments fs (S i) ps) as [fl|e] eqn:R; [|discriminate].
      injection H as <-. destruct (IH _ _ R) as [Hf ->].
      split; [constructor; [congruence|exact Hf]|reflexivity].
    + destruct (IH _ _ H) as [Hf ->]. split; [constructor; [congruence|exact Hf]|reflexivity].
    + discriminate.
Qed.

Lemma attachment_keys_nodup (fs : string -> file_result) (i : nat) (paths : list string) :
  NoDup (map fst (flat_map (attachment_entry fs) (combine (seq i (length paths)) paths))) /\
  (forall k, In k (map fst (flat_map (attachment_entry fs) (combine (seq i (length paths)) paths))) ->
   exists j, (i <= j)%nat /\ k = ("attachment_" ++ py_str_nat j)%string).
Proof.
  revert i. induction paths as [|p ps IH]; intros i; simpl.
  - split; [constructor|intros k []].
  - destruct (IH (S i)) as [Hnd Hin].
    change (attachment_entry fs (i, p)) with
      (match fs p with
       | FileBytes d => [(("attachment_" ++ py_str_nat i)%string, d)]
       | _ => []
       end).
    destruct (fs p) as [d| |]; simpl.
    + split.
      * constructor; [|exact Hnd]. intros Hk. apply list_elem_of_In in Hk. destruct (Hin _ Hk) as [j [Hj Ek]].
        apply attachment_key_inj in Ek. lia.
      * intros k [<-|Hk]; [exists i; split; [lia|reflexivity]|].
        destruct (Hin _ Hk) as [j [Hj ->]]. exists j. split; [lia|reflexivity].
    + split; [exact Hnd|]. intros k Hk. destruct (Hin _ Hk) as [j [Hj ->]].
      exists j. split; [lia|reflexivity].
    + split; [exact Hnd|]. intros k Hk. destruct (Hin _ Hk) as [j [Hj ->]].
      exists j. split; [lia|reflexivity].
Qed.

(** [send_email] only ever builds a request for an address that
    [validate_email] accepts, with a non-empty subject and message and
    configured credentials; the request is a POST to [email_base_url/]. *)
Theorem send_email_guard (c : nalo_client) (fs : string -> file_result)
    (to_email subject message send_format : string) (attachments : option (list string))
    (custom_headers : option (list (string * string))) (req : request) :
  email_request c fs to_email subject message send_format attachments custom_headers = inl req ->
  validate_email to_email = true /\ subject <> "" /\ message <> "" /\
  (truthy (email_username c) && truthy (email_password c) || truthy (email_auth_key c)) = true /\
  req_method req = "POST" /\ req_url req = (email_base_url ++ "/")%string.
Proof.
  unfold email_request. intros H.
  destruct (String.eqb to_email "") eqn:E1; [discriminate|].
  destruct (String.eqb subject "") eqn:E2; [discriminate|].
  destruct (String.eqb message "") eqn:E3; [discriminate|].
  destruct (validate_email to_email) eqn:E4; [|discriminate].
  destruct (truthy (email_username c) && truthy (email_password c) || truthy (email_auth_key c))
    eqn:E5; [|discriminate].
  apply String.eqb_neq in E2, E3. simpl in H.
  split; [reflexivity|]. split; [exact E2|]. split; [exact E3|]. split; [reflexivity|].
  destruct (String.eqb send_format "json").
  - injection H as <-. split; reflexivity.
  - destruct (match attachments with Some (_ :: _) => _ | _ => _ end); [|discriminate].
    injection H as <-. split; reflexivity.
Qed.

Lemma send_email_guard_witness :
  validate_email "a@b.c" = true /\ "s" <> "" /\ "m" <> "" /\
  (truthy None && truthy None || truthy (Some "k")) = true /\
  req_method (mk_request "POST" (email_base_url ++ "/")%string
                (JsonBody (email_data (mk_client None None None None None None (Some "k") None None)
                             "a@b.c" "s" "m" None))) = "POST" /\
  req_url (mk_request "POST" (email_base_url ++ "/")%string
             (JsonBody (email_data (mk_client None None None None None None (Some "k") None None)
                          "a@b.c" "s" "m" None))) = (email_base_url ++ "/")%string.
Proof.
  exact (send_email_guard (mk_client None None None None None None (Some "k") None None)
           (fun _ => FileMissing) "a@b.c" "s" "m" "json" None None _ eq_refl).
Defined.

(** In the form branch every attachment path is opened in turn: a path
    that raises an [OSError] other than [FileNotFoundError] aborts the
    call, a missing file is skipped, and each file that opens is sent
    under [attachment_i] with [i] its position in [attachments] (so the
    keys keep the gaps of skipped files and never collide). *)
Theorem send_email_attachments (c : nalo_client) (fs : string -> file_result)
    (to_email subject message send_format : string) (paths : list string)
    (custom_headers : option (list (string * string))) (req : request) :
  send_format <> "json" ->
  email_request c fs to_email subject message send_format (Some paths) custom_headers = inl req ->
  Forall (fun p => fs p <> FileError) paths /\
  req = mk_request "POST" (email_base_url ++ "/")%string
          (FormBody (email_data c to_email subject message custom_headers)
             (attachment_files fs paths) [("Content-Type", "multipart/form-data")]) /\
  NoDup (map fst (attachment_files fs paths)).
Proof.
  intros Hfmt H. unfold email_request in H.
  destruct (String.eqb to_email ""); [discriminate|].
  destruct (String.eqb subject ""); [discriminate|].
  destruct (String.eqb message ""); [discriminate|].
  destruct (validate_email to_email); [|discriminate].
  destruct (truthy (email_username c) && truthy (email_password c) || truthy (email_auth_key c));
    [|discriminate].
  simpl in H. apply String.eqb_neq in Hfmt. rewrite Hfmt in H.
  split; [|split]; [| |apply attachment_keys_nodup].
  - destruct paths as [|p ps]; [constructor|].
    destruct (read_attachments fs 0 (p :: ps)) eqn:R; [|discriminate].
    apply (read_attachments_inl _ _ _ _ R).
  - destruct paths as [|p ps]; [injection H as <-; reflexivity|].
    destruct (read_attachments fs 0 (p :: ps)) eqn:R; [|discriminate].
    injection H as <-. destruct (read_attachments_inl _ _ _ _ R) as [_ ->]. reflexivity.
Qed.

Definition sample_fs (p : string) : file_result :=
  if String.eqb p "a.pdf" then FileBytes "A"
  else if String.eqb p "c.pdf" then FileBytes "C" else FileMissing.

Lemma send_email_attachments_witness :
  Forall (fun p => sample_fs p <> FileError) ["a.pdf"; "b.pdf"; "c.pdf"] /\
  attachment_files sample_fs ["a.pdf"; "b.pdf"; "c.pdf"] =
    [("attachment_0", "A"); ("attachment_2", "C")] /\
  NoDup (map fst (attachment_files sample_fs ["a.pdf"; "b.pdf"; "c.pdf"])).
Proof.
  destruct (send_email_attachments (mk_client None None None None None None (Some "k") None None)
              sample_fs "a@b.c" "s" "m" "form" ["a.pdf"; "b.pdf"; "c.pdf"] None _
              ltac:(discriminate) eq_refl) as (Hf & _ & Hnd).
  split; [exact Hf|]. split; [vm_compute; reflexivity|exact Hnd].
Defined.

(** [send_html_email] checks nothing: it builds its request for an
    address [validate_email] rejects (even an empty one) and without
    credentials, where [send_email] with the same arguments raises. *)
Theorem send_html_email_unchecked (c : nalo_client) (fs : string -> file_result)
    (to_email subject html_content : string) :
  validate_email to_email = false ->
  (exists e, email_request c fs to_email subject html_content "json" None None = inr e) /\
  exists fields,
    html_email_request c to_email subject html_content =
    mk_request "POST" (email_base_url ++ "/")%string (JsonBody (("to", PStr to_email) :: fields)).
Proof.
  intros Hv. split.
  - unfold email_request. rewrite Hv.
    destruct (String.eqb to_email ""); [eexists; reflexivity|].
    destruct (String.eqb subject ""); [eexists; reflexivity|].
    destruct (String.eqb html_content ""); eexists; reflexivity.
  - eexists. reflexivity.
Qed.

Lemma send_html_email_unchecked_witness :
  (exists e, email_request (mk_client None None None None None None None None None)
               (fun _ => FileMissing) "not an address" "s" "<p>x</p>" "json" None None = inr e) /\
  exists fields,
    html_email_request (mk_client None None None None None None None None None)
      "not an address" "s" "<p>x</p>" =
    mk_request "POST" (email_base_url ++ "/")%string (JsonBody (("to", PStr "not an address") :: fields)).
Proof.
  apply (send_html_email_unchecked (mk_client None None None None None None None None None)
           (fun _ => FileMissing) "not an address" "s" "<p>x</p>").
  vm_compute. reflexivity.
Defined.

(** ** [send_bulk_email] *)

(** A decoded JSON document, as [response.json()] returns it. *)
#[warnings="-register-all"]
Inductive json :=
| JNull
| JBool (b : bool)
| JNum (z : Z)
| JStr (s : string)
| JArr (items : list json)
| JObj (kvs : list (string * json)).

(** [d.get(k)] on a decoded object: the last binding of a key wins. *)
Definition json_get (k : string) (kvs : list (string * json)) : option json :=
  fold_left (fun acc kv => if String.eqb (fst kv) k then Some (snd kv) else acc) kvs None.

(** [r.get("status") == "success"]; only a dict has [.get]. *)
Definition status_success (r : json) : bool + py_error :=
  match r with
  | JObj kvs =>
      inl (match json_get "status" kvs with Some (JStr s) => String.eqb s "success" | _ => false end)
  | _ => inr (PAttributeError "get")
  end.

(** [all(r.get("status") == "success" for r in results)], short-circuiting. *)
Fixpoint all_success (results : list json) : bool + py_error :=
  match results with
  | [] => inl true
  | r :: rs =>
      match status_success r with
      | inl true => all_success rs
      | inl false => inl false
      | inr e => inr e
      end
  end.

Inductive bulk_result :=
| BulkSuccess (sent_count : nat)
| BulkPartial (results : list json).

Section BulkEmail.

(** [_make_request] seen from its callers: the decoded reply to a request
    (it turns every transport failure into an error dict and never raises). *)
Variable make_request : request -> json.
Variable c : nalo_client.

(** [send_email] with its defaults ([send_format="json"], no attachments):
    the file system is never read on this path. *)
Definition send_email_json (to_email subject message : string) : request + py_error :=
  email_request c (fun _ => FileMissing) to_email subject message "json" None None.

(** The loop of [send_bulk_email]: the requests made, in order, and the
    results or the exception that ends the loop. *)
Fixpoint bulk_loop (recipients : list (gmap string string)) (subject message : string)
    : list request * (list json + py_error) :=
  match recipients with
  | [] => ([], inl [])
  | r :: rest =>
      match r !! "email" with
      | None => ([], inr (PKeyError "email"))
      | Some to_email =>
          match send_email_json to_email subject message with
          | inr e => ([], inr e)
          | inl req =>
              let '(reqs, res) := bulk_loop rest subject message in
              (req :: reqs,
               match res with
               | inl results => inl (make_request req :: results)
               | inr e => inr e
               end)
          end
      end
  end.

Definition send_bulk_email (recipients : list (gmap string string)) (subject message : string)
    : list request * (bulk_result + py_error) :=
  let '(reqs, res) := bulk_loop recipients subject message in
  (reqs,
   match res with
   | inr e => inr e
   | inl results =>
       match all_success results with
       | inl true => inl (BulkSuccess (length results))
       | inl false => inl (BulkPartial results)
       | inr e => inr e
       end
   end).

End BulkEmail.

(** ** [send_email_with_template] *)

(** [sub in s] for a string [sub]. *)
Fixpoint has_substr (sub l : list ascii) : bool :=
  starts_with sub l || match l with [] => false | _ :: r => has_substr sub r end.

(** [s.replace(old, new)] for a non-empty [old]: non-overlapping matches,
    left to right; [fuel] bounds the scan (one step per character). *)
Fixpoint replace_fuel (fuel : nat) (old new l : list ascii) : list ascii :=
  match fuel with
  | O => l
  | S f =>
      match l with
      | [] => []
      | c :: r =>
          if starts_with old l then new ++ replace_fuel f old new (skipn (length old) l)
          else c :: replace_fuel f old new r
      end
  end.

Definition py_replace (s old new : string) : string :=
  let l := list_ascii_of_string s in
  string_of_list_ascii
    (replace_fuel (S (length l)) (list_ascii_of_string old) (list_ascii_of_string new) l).

(** [str(value)] for the values of [template_data]. *)
Definition py_str_Z (z : Z) : string :=
  if (z <? 0)%Z then ("-" ++ py_str_nat (Z.to_nat (- z)))%string else py_str_nat (Z.to_nat z).

Definition py_str_val (v : pyval) : string :=
  match v with
  | VInt z => py_str_Z z
  | VStr s => s
  | VBool b => if b then "True" else "False"
  | VNone => "None"
  end.

Definition placeholder (key : string) : string := ("{{" ++ key ++ "}}")%string.

(** The [for key, value in template_data.items()] loop, in the dict's
    insertion order. *)
Definition fill_template (subject message : string) (template_data : list (string * pyval))
    : string * string :=
  fold_left (fun sm kv =>
               (py_replace (fst sm) (placeholder (fst kv)) (py_str_val (snd kv)),
                py_replace (snd sm) (placeholder (fst kv)) (py_str_val (snd kv))))
    template_data (subject, message).

Definition template_email_request (c : nalo_client) (to_email : string)
    (template : gmap string string) (template_data : list (string * pyval))
    : request + py_error :=
  match template !! "subject" with
  | None => inr (PKeyError "subject")
  | Some subject =>
      match template !! "body" with
      | None => inr (PKeyError "body")
      | Some body =>
          let '(s, m) := fill_template subject body template_data in
          send_email_json c to_email s m
      end
  end.

(** ** Properties of [send_bulk_email] *)

Definition email_json_request (c : nalo_client) (to_email subject message : string) : request :=
  mk_request "POST" (email_base_url ++ "/")%string (JsonBody (email_data c to_email subject message None)).

Lemma send_email_json_ok (c : nalo_client) (to_email subject message : string) :
  validate_email to_email = true -> subject <> "" -> message <> "" ->
  (truthy (email_username c) && truthy (email_password c) || truthy (email_auth_key c)) = true ->
  send_email_json c to_email subject message = inl (email_json_request c to_email subject message).
Proof.
  intros Hv Hs Hm Hc. unfold send_email_json, email_request.
  destruct (String.eqb to_email "") eqn:E.
  { apply String.eqb_eq in E. subst. discriminate Hv. }
  apply String.eqb_neq in Hs, Hm. rewrite Hs, Hm, Hv, Hc. reflexivity.
Qed.

Lemma send_email_json_invalid (c : nalo_client) (to_email subject message : string) :
  validate_email to_email = false -> exists e, send_email_json c to_email subject message = inr e.
Proof.
  intros Hv. unfold send_email_json, email_request. rewrite Hv.
  destruct (String.eqb to_email ""); [eexists; reflexivity|].
  destruct (String.eqb subject ""); [eexists; reflexivity|].
  destruct (String.eqb message ""); eexists; reflexivity.
Qed.

Lemma bulk_loop_ok (mr : request -> json) (c : nalo_client) (rs : list (gmap string string))
    (tos : list string) (subject message : string) :
  Forall2 (fun r to => r !! "email" = Some to) rs tos ->
  Forall (fun to => validate_email to = true) tos -> subject <> "" -> message <> "" ->
  (truthy (email_username c) && truthy (email_password c) || truthy (email_auth_key c)) = true ->
  bulk_loop mr c rs subject message =
  (map (fun to => email_json_request c to subject message) tos,
   inl (map (fun to => mr (email_json_request c to subject message)) tos)).
Proof.
  intros H2 Hv Hs Hm Hc. induction H2 as [|r to rs tos Hr _ IH]; [reflexivity|].
  inversion Hv as [|? ? Hto Hv']; subst.
  simpl. rewrite Hr, send_email_json_ok by assumption. rewrite IH by assumption. reflexivity.
Qed.

Lemma all_success_true (results : list json) :
  all_success results = inl true <-> Forall (fun r => status_success r = inl true) results.
Proof.
  induction results as [|r rs IH]; simpl; [split; [constructor|reflexivity]|].
  destruct (status_success r) as [[|]|e] eqn:S.
  - rewrite IH. split; [intros H; constructor; assumption|intros H; inversion H; assumption].
  - split; [discriminate|intros H; inversion H; congruence].
  - split; [discriminate|intros H; inversion H; congruence].
Qed.

(** When every recipient dict has an ["email"] that [validate_email]
    accepts and the subject, message and credentials are set,
    [send_bulk_email] makes exactly one request per recipient, in order,
    addressed to that recipient; it reports [{"status": "success",
    "sent_count": len(recipients)}] exactly when every reply is a dict
    whose ["status"] is ["success"]. An empty list is reported as a
    success with [sent_count] 0 and no request, whatever the subject,
    message and credentials. *)
Theorem send_bulk_email_all_valid (mr : request -> json) (c : nalo_client)
    (rs : list (gmap string string)) (tos : list string) (subject message : string) :
  Forall2 (fun r to => r !! "email" = Some to) rs tos ->
  Forall (fun to => validate_email to = true) tos -> subject <> "" -> message <> "" ->
  (truthy (email_username c) && truthy (email_password c) || truthy (email_auth_key c)) = true ->
  fst (send_bulk_email mr c rs subject message) =
    map (fun to => email_json_request c to subject message) tos /\
  (snd (send_bulk_email mr c rs subject message) = inl (BulkSuccess (length rs)) <->
   Forall (fun r => status_success r = inl true) (map mr (fst (send_bulk_email mr c rs subject message)))) /\
  (forall c' subject' message', send_bulk_email mr c' [] subject' message' = ([], inl (BulkSuccess 0))).
Proof.
  intros H2 Hv Hs Hm Hc. unfold send_bulk_email.
  rewrite (bulk_loop_ok mr c rs tos subject message H2 Hv Hs Hm Hc). simpl.
  split; [reflexivity|]. split; [|reflexivity].
  rewrite map_map, <- all_success_true.
  rewrite (Forall2_length _ _ _ H2).
  destruct (all_success _) as [[|]|e].
  - rewrite length_map. split; reflexivity.
  - split; discriminate.
  - split; discriminate.
Qed.

Definition sample_reply (req : request) : json := JObj [("status", JStr "success")].

Lemma send_bulk_email_all_valid_witness :
  fst (send_bulk_email sample_reply (mk_client None None None None None None (Some "k") None None)
         [{["email" := "a@b.c"]}; {["email" := "d@e.f"]}] "s" "m") =
    map (fun to => email_json_request (mk_client None None None None None None (Some "k") None None)
                     to "s" "m") ["a@b.c"; "d@e.f"].
Proof.
  apply (send_bulk_email_all_valid sample_reply
           (mk_client None None None None None None (Some "k") None None)
           [{["email" := "a@b.c"]}; {["email" := "d@e.f"]}] ["a@b.c"; "d@e.f"] "s" "m").
  - constructor; [reflexivity|]. constructor; [reflexivity|]. constructor.
  - constructor; [reflexivity|]. constructor; [reflexivity|]. constructor.
  - discriminate.
  - discriminate.
  - reflexivity.
Defined.

(** A recipient without an ["email"] key, or with an address
    [validate_email] rejects, makes [send_bulk_email] raise: the emails of
    the recipients before it have already been sent, nothing is rolled
    back and no summary is returned. *)
Theorem send_bulk_email_stops (mr : request -> json) (c : nalo_client)
    (pre post : list (gmap string string)) (r : gmap string string) (tos : list string)
    (subject message : string) :
  Forall2 (fun r to => r !! "email" = Some to) pre tos ->
  Forall (fun to => validate_email to = true) tos -> subject <> "" -> message <> "" ->
  (truthy (email_username c) && truthy (email_password c) || truthy (email_auth_key c)) = true ->
  (r !! "email" = None \/ exists to, r !! "email" = Some to /\ validate_email to = false) ->
  fst (send_bulk_email mr c (pre ++ r :: post) subject message) =
    map (fun to => email_json_request c to subject message) tos /\
  exists e, snd (send_bulk_email mr c (pre ++ r :: post) subject message) = inr e.
Proof.
  intros H2 Hv Hs Hm Hc Hr.
  assert (L : exists e, bulk_loop mr c (pre ++ r :: post) subject message =
                        (map (fun to => email_json_request c to subject message) tos, inr e)).
  { induction H2 as [|r0 to rs tos' Hr0 _ IH].
    - simpl. destruct Hr as [-> | [to [-> Hto]]]; [eexists; reflexivity|].
      destruct (send_email_json_invalid c to subject message Hto) as [e ->].
      eexists; reflexivity.
    - inversion Hv as [|? ? Hto Hv']; subst. destruct (IH Hv') as [e IHe].
      exists e. simpl. rewrite Hr0, send_email_json_ok by assumption. rewrite IHe. reflexivity. }
  destruct L as [e L]. unfold send_bulk_email. rewrite L. simpl.
  split; [reflexivity|]. eexists; reflexivity.
Qed.

Lemma send_bulk_email_stops_witness :
  fst (send_bulk_email sample_reply (mk_client None None None None None None (Some "k") None None)
         ([{["email" := "a@b.c"]}] ++ {["email" := "bad"]} :: [{["email" := "d@e.f"]}]) "s" "m") =
    map (fun to => email_json_request (mk_client None None None None None None (Some "k") None None)
                     to "s" "m") ["a@b.c"].
Proof.
  apply (send_bulk_email_stops sample_reply
           (mk_client None None None None None None (Some "k") None None)
           [{["email" := "a@b.c"]}] [{["email" := "d@e.f"]}] {["email" := "bad"]} ["a@b.c"] "s" "m").
  - constructor; [reflexivity|constructor].
  - constructor; [reflexivity|constructor].
  - discriminate.
  - discriminate.
  - reflexivity.
  - right. exists "bad". split; reflexivity.
Defined.

(** ** Properties of [send_email_with_template] *)

Lemma starts_with_brace2 (rest l : list ascii) :
  starts_with ("{"%char :: "{"%char :: rest) l = true ->
  starts_with ["{"%char; "{"%char] l = true.
Proof.
  destruct l as [|c1 [|c2 l]]; cbn [starts_with]; intros H; [discriminate| |].
  - rewrite andb_false_r in H. discriminate.
  - apply andb_true_iff in H as [H1 H]. apply andb_true_iff in H as [H2 _].
    rewrite H1, H2. reflexivity.
Qed.

Lemma replace_fuel_noop (f : nat) (rest new l : list ascii) :
  has_substr ["{"%char; "{"%char] l = false ->
  replace_fuel f ("{"%char :: "{"%char :: rest) new l = l.
Proof.
  revert l. induction f as [|f IH]; intros l H; [reflexivity|].
  destruct l as [|c r]; [reflexivity|].
  cbn [has_substr] in H. apply orb_false_iff in H as [H1 H2].
  cbn [replace_fuel].
  destruct (starts_with ("{"%char :: "{"%char :: rest) (c :: r)) eqn:S.
  - apply starts_with_brace2 in S. congruence.
  - rewrite IH by exact H2. reflexivity.
Qed.

Lemma py_replace_noop (s key v : string) :
  has_substr ["{"%char; "{"%char] (list_ascii_of_string s) = false ->
  py_replace s (placeholder key) v = s.
Proof.
  intros H. unfold py_replace, placeholder.
  change (list_ascii_of_string ("{{" ++ key ++ "}}")%string)
    with ("{"%char :: "{"%char :: list_ascii_of_string (key ++ "}}")%string).
  rewrite replace_fuel_noop by exact H. apply string_of_list_ascii_of_string.
Qed.

Lemma fill_template_noop (subject message : string) (template_data : list (string * pyval)) :
  has_substr ["{"%char; "{"%char] (list_ascii_of_string subject) = false ->
  has_substr ["{"%char; "{"%char] (list_ascii_of_string message) = false ->
  fill_template subject message template_data = (subject, message).
Proof.
  intros Hs Hm. unfold fill_template. induction template_data as [|kv kvs IH]; [reflexivity|].
  simpl. rewrite !py_replace_noop by assumption. exact IH.
Qed.

(** A template whose subject and body contain no ["{{"] is sent as it
    is, whatever [template_data] holds. *)
Theorem template_without_placeholders (c : nalo_client) (to_email : string)
    (template : gmap string string) (template_data : list (string * pyval))
    (subject body : string) :
  template !! "subject" = Some subject -> template !! "body" = Some body ->
  has_substr (list_ascii_of_string "{{") (list_ascii_of_string subject) = false ->
  has_substr (list_ascii_of_string "{{") (list_ascii_of_string body) = false ->
  template_email_request c to_email template template_data = send_email_json c to_email subject body.
Proof.
  intros Hs Hb Ns Nb. unfold template_email_request. rewrite Hs, Hb.
  rewrite fill_template_noop by assumption. reflexivity.
Qed.

Lemma template_without_placeholders_witness :
  template_email_request (mk_client None None None None None None (Some "k") None None) "a@b.c"
    (<["subject" := "Hi"]> {["body" := "Dear user"]}) [("name", VStr "Ama")] =
  send_email_json (mk_client None None None None None None (Some "k") None None) "a@b.c"
    "Hi" "Dear user".
Proof.
  apply template_without_placeholders; reflexivity.
Defined.

Lemma starts_with_self (l rest : list ascii) : starts_with l (l ++ rest) = true.
Proof. induction l as [|c l IH]; simpl; [reflexivity|]. rewrite Ascii.eqb_refl, IH. reflexivity. Qed.

Lemma no_brace_substr (l : list ascii) :
  has_char "{"%char l = false -> has_substr ["{"%char; "{"%char] l = false.
Proof.
  unfold has_char. induction l as [|c l IH]; [reflexivity|].
  cbn [existsb]. intros H. apply orb_false_iff in H as [H1 H2].
  cbn [has_substr starts_with]. rewrite H1. cbn [andb orb]. exact (IH H2).
Qed.

Lemma replace_fuel_skip (old new : list ascii) (a rest : list ascii) (f : nat) :
  has_char "{"%char a = false -> (exists r, old = "{"%char :: r) -> (length a <= f)%nat ->
  replace_fuel f old new (a ++ rest) = a ++ replace_fuel (f - length a) old new rest.
Proof.
  intros Ha [r ->]. revert f. induction a as [|c a IH]; intros f Hf.
  - simpl. rewrite Nat.sub_0_r. reflexivity.
  - unfold has_char in Ha. cbn [existsb] in Ha. apply orb_false_iff in Ha as [H1 H2].
    destruct f as [|f]; [simpl in Hf; lia|].
    cbn [replace_fuel app starts_with]. rewrite H1. cbn [andb].
    rewrite IH by (exact H2 || (simpl in Hf; lia)). reflexivity.
Qed.

Lemma replace_fuel_match (old new rest : list ascii) (f : nat) :
  old <> [] -> replace_fuel (S f) old new (old ++ rest) = new ++ replace_fuel f old new rest.
Proof.
  intros Hne. destruct old as [|c o]; [congruence|].
  cbn [replace_fuel]. change (c :: o ++ rest) with ((c :: o) ++ rest).
  rewrite starts_with_self, skipn_app, Nat.sub_diag, skipn_all. reflexivity.
Qed.

(** With a single entry [key: value] in [template_data], a subject of
    the form [a + "{{key}}" + b], where [a] and [b] contain no '{', is
    sent as [a + str(value) + b]; the body, whatever it is, is sent as
    [body.replace("{{key}}", str(value))]. *)
Theorem template_fills_placeholder (c : nalo_client) (to_email : string)
    (template : gmap string string) (key : string) (value : pyval) (a b body : string) :
  template !! "subject" = Some (a ++ placeholder key ++ b)%string ->
  template !! "body" = Some body ->
  has_char "{"%char (list_ascii_of_string a) = false ->
  has_char "{"%char (list_ascii_of_string b) = false ->
  template_email_request c to_email template [(key, value)] =
  send_email_json c to_email (a ++ py_str_val value ++ b)%string
    (py_replace body (placeholder key) (py_str_val value)).
Proof.
  intros Hs Hb Na Nb. unfold template_email_request. rewrite Hs, Hb.
  unfold fill_template. simpl fold_left. cbn [fst snd].
  f_equal. unfold py_replace at 1.
  rewrite !list_ascii_of_string_append.
  set (ph := list_ascii_of_string (placeholder key)).
  assert (Hph : exists r, ph = "{"%char :: r).
  { eexists. reflexivity. }
  rewrite replace_fuel_skip by (exact Na || exact Hph || (rewrite !length_app; lia)).
  destruct Hph as [r Er].
  replace (S (length (list_ascii_of_string a ++ ph ++ list_ascii_of_string b)) -
           length (list_ascii_of_string a))%nat
    with (S (length (ph ++ list_ascii_of_string b))) by (rewrite !length_app; lia).
  rewrite (replace_fuel_match ph) by (rewrite Er; discriminate).
  assert (Hr : exists r', ph = "{"%char :: "{"%char :: r') by (eexists; reflexivity).
  destruct Hr as [r' Er']. rewrite Er'.
  rewrite replace_fuel_noop by (apply no_brace_substr; exact Nb).
  rewrite <- list_ascii_of_string_append, <- list_ascii_of_string_append.
  apply string_of_list_ascii_of_string.
Qed.

Lemma template_fills_placeholder_witness :
  template_email_request (mk_client None None None None None None (Some "k") None None) "a@b.c"
    (<["subject" := "Hello {{name}}!"]> {["body" := "Dear {{name}}"]}) [("name", VStr "Ama")] =
  send_email_json (mk_client None None None None None None (Some "k") None None) "a@b.c"
    ("Hello " ++ py_str_val (VStr "Ama") ++ "!")%string
    (py_replace "Dear {{name}}" (placeholder "name") (py_str_val (VStr "Ama"))).
Proof.
  apply (template_fills_placeholder _ _ _ "name" (VStr "Ama") "Hello " "!" "Dear {{name}}");
    reflexivity.
Defined.

(** ** Concrete instances of the validator and SMS characterisations *)

Lemma validate_phone_number_digits_only_witness :
  length (List.filter py_isdigit (list_ascii_of_string "024 123 4567")) = 10%nat \/
  length (List.filter py_isdigit (list_ascii_of_string "024 123 4567")) = 12%nat.
Proof.
  apply (proj2 (validate_phone_number_digits_only "024 123 4567")). vm_compute. reflexivity.
Defined.

Lemma validate_email_iff_witness : validate_email "ama@example.com" = true.
Proof.
  apply (proj2 (validate_email_iff "ama@example.com")).
  exists (list_ascii_of_string "ama"), (list_ascii_of_string "example.com").
  split; [reflexivity|]. do 6 (split; [reflexivity|]). reflexivity.
Defined.

Lemma send_sms_accepts_witness :
  exists req, sms_request (mk_client None None (Some "k") None None None None None None)
                "0241234567" "Hello" "POST" None = inl req.
Proof.
  apply (proj2 (send_sms_accepts (mk_client None None (Some "k") None None None None None None)
                  "0241234567" "Hello" "POST" None)).
  split; [discriminate|]. split; [discriminate|]. split; [right; reflexivity|].
  split; [vm_compute; lia|reflexivity].
Defined.
